(** * The inventory ledger of the biotech inventory tracker

    A shallow embedding of [src/contexts/InventoryContext.tsx] (the
    [InventoryProvider]) and of the types of [src/types/inventory.ts].

    - A TypeScript [number] is an IEEE-754 binary64 value: Rocq's primitive
      [float], with the comparisons [<?], [<=?], [=?] for [<], [<=], [===].
    - A timestamp is the string produced by [new Date().toISOString()].
    - The provider's React state is the record [World]; every asynchronous
      operation is a computation in the monad [M], which threads the state,
      can throw, and asks an environment [Env] for whatever the outside world
      answers (the authentication service, the clock, the id generator, the
      hosted database).  A thrown error does not roll the state back. *)

From Stdlib Require Import ZArith List String Bool Floats.
From Stdlib Require Import Permutation RelationClasses Lia.
Import ListNotations.

Open Scope string_scope.
Open Scope list_scope.

#[local] Set Warnings "-inexact-float".

(** ** Data model ([src/types/inventory.ts]) *)

(** A TypeScript [number]. *)
Definition number : Set := float.
Bind Scope float_scope with number.

Inductive InventoryCategory : Type :=
  | reagent
  | diluent
  | antibody_conjugate
  | unconjugated_antibody
  | calibrator
  | reaction_kit.

Inductive TransactionType : Type :=
  | Add       (* 'add' *)
  | Remove    (* 'remove' *)
  | Adjust    (* 'adjust' *)
  | Transfer. (* 'transfer' *)

(** [Omit<InventoryItem, 'id' | 'userId' | 'createdAt' | 'updatedAt'>]: the
    fields a caller supplies.  An optional property ([description?: string])
    is an [option]. *)
Record ItemFields : Type := {
  name : string;
  category : InventoryCategory;
  description : option string;
  manufacturer : option string;
  catalogNumber : option string;
  lotNumber : option string;
  quantity : number;
  unit_ : string; (* unit *)
  location : option string;
  storageConditions : option string;
  expirationDate : option string;
  purchaseDate : option string;
  costPerUnit : option number;
  supplier : option string;
  minimumStockLevel : number;
  barcode : option string;
  notes : option string
}.

(** [InventoryItem]: the supplied fields together with the four properties
    the ledger fills in, so that [{...itemData, id, userId, createdAt,
    updatedAt}] is a record literal. *)
Record InventoryItem : Type := {
  fields :> ItemFields;
  id : string;
  userId : string;
  createdAt : string;
  updatedAt : string
}.

Record InventoryTransaction : Type := {
  tx_id : string;
  itemId : string;
  transactionType : TransactionType;
  quantityChange : number;
  previousQuantity : number;
  newQuantity : number;
  reason : option string;
  performedBy : string;
  tx_userId : string;
  tx_createdAt : string
}.

(** [Partial<InventoryItem>]: every property may be absent ([None]).  For a
    property that is itself optional, [Some None] is the key present with the
    value [undefined]. *)
Record ItemPatch : Type := {
  p_id : option string;
  p_name : option string;
  p_category : option InventoryCategory;
  p_description : option (option string);
  p_manufacturer : option (option string);
  p_catalogNumber : option (option string);
  p_lotNumber : option (option string);
  p_quantity : option number;
  p_unit : option string;
  p_location : option (option string);
  p_storageConditions : option (option string);
  p_expirationDate : option (option string);
  p_purchaseDate : option (option string);
  p_costPerUnit : option (option number);
  p_supplier : option (option string);
  p_minimumStockLevel : option number;
  p_barcode : option (option string);
  p_notes : option (option string);
  p_userId : option string;
  p_createdAt : option string;
  p_updatedAt : option string
}.

Definition emptyPatch : ItemPatch :=
  {| p_id := None; p_name := None; p_category := None; p_description := None;
     p_manufacturer := None; p_catalogNumber := None; p_lotNumber := None;
     p_quantity := None; p_unit := None; p_location := None;
     p_storageConditions := None; p_expirationDate := None;
     p_purchaseDate := None; p_costPerUnit := None; p_supplier := None;
     p_minimumStockLevel := None; p_barcode := None; p_notes := None;
     p_userId := None; p_createdAt := None; p_updatedAt := None |}.

(** One property of an object spread [{...old, ...patch}]: the patch wins
    where it has the key. *)
Definition overlay {A : Type} (patch : option A) (old : A) : A :=
  match patch with
  | Some v => v
  | None => old
  end.

(** [{ ...item, ...patch }] *)
Definition spread (item : InventoryItem) (patch : ItemPatch) : InventoryItem :=
  {| fields :=
       {| name := overlay (p_name patch) (name item);
          category := overlay (p_category patch) (category item);
          description := overlay (p_description patch) (description item);
          manufacturer := overlay (p_manufacturer patch) (manufacturer item);
          catalogNumber := overlay (p_catalogNumber patch) (catalogNumber item);
          lotNumber := overlay (p_lotNumber patch) (lotNumber item);
          quantity := overlay (p_quantity patch) (quantity item);
          unit_ := overlay (p_unit patch) (unit_ item);
          location := overlay (p_location patch) (location item);
          storageConditions :=
            overlay (p_storageConditions patch) (storageConditions item);
          expirationDate := overlay (p_expirationDate patch) (expirationDate item);
          purchaseDate := overlay (p_purchaseDate patch) (purchaseDate item);
          costPerUnit := overlay (p_costPerUnit patch) (costPerUnit item);
          supplier := overlay (p_supplier patch) (supplier item);
          minimumStockLevel :=
            overlay (p_minimumStockLevel patch) (minimumStockLevel item);
          barcode := overlay (p_barcode patch) (barcode item);
          notes := overlay (p_notes patch) (notes item) |};
     id := overlay (p_id patch) (id item);
     userId := overlay (p_userId patch) (userId item);
     createdAt := overlay (p_createdAt patch) (createdAt item);
     updatedAt := overlay (p_updatedAt patch) (updatedAt item) |}.

(** [{ ...updates, updatedAt }] *)
Definition withUpdatedAt (updates : ItemPatch) (t : string) : ItemPatch :=
  {| p_id := p_id updates; p_name := p_name updates;
     p_category := p_category updates; p_description := p_description updates;
     p_manufacturer := p_manufacturer updates;
     p_catalogNumber := p_catalogNumber updates;
     p_lotNumber := p_lotNumber updates; p_quantity := p_quantity updates;
     p_unit := p_unit updates; p_location := p_location updates;
     p_storageConditions := p_storageConditions updates;
     p_expirationDate := p_expirationDate updates;
     p_purchaseDate := p_purchaseDate updates;
     p_costPerUnit := p_costPerUnit updates; p_supplier := p_supplier updates;
     p_minimumStockLevel := p_minimumStockLevel updates;
     p_barcode := p_barcode updates; p_notes := p_notes updates;
     p_userId := p_userId updates; p_createdAt := p_createdAt updates;
     p_updatedAt := Some t |}.

(** [{ quantity: newQuantity, updatedAt }] *)
Definition quantityPatch (newQuantity : number) (t : string) : ItemPatch :=
  {| p_id := None; p_name := None; p_category := None; p_description := None;
     p_manufacturer := None; p_catalogNumber := None; p_lotNumber := None;
     p_quantity := Some newQuantity; p_unit := None; p_location := None;
     p_storageConditions := None; p_expirationDate := None;
     p_purchaseDate := None; p_costPerUnit := None; p_supplier := None;
     p_minimumStockLevel := None; p_barcode := None; p_notes := None;
     p_userId := None; p_createdAt := None; p_updatedAt := Some t |}.

(** The user record [blink.auth.me()] resolves to. *)
Record User : Type := {
  user_id : string;
  email : option string
}.

(** [user.email || user.id]: an absent or empty email is falsy. *)
Definition performer (user : User) : string :=
  match email user with
  | Some e => if (e =? "")%string then user_id user else e
  | None => user_id user
  end.

(** ** The outside world *)

(** The hosted store is reached through [blink.db.<table>.<method>(...)]. *)
Inductive Table : Type :=
  | inventoryItems
  | inventoryTransactions.

Inductive DbRecord : Type :=
  | ItemRecord (item : InventoryItem)
  | TransactionRecord (transaction : InventoryTransaction).

(** [DbList uid limit] is [list({ where: { userId: uid }, orderBy:
    { createdAt: 'desc' }, limit })]. *)
Inductive DbOp : Type :=
  | DbList (uid : string) (limit : option nat)
  | DbCreate (record : DbRecord)
  | DbUpdate (key : string) (patch : ItemPatch)
  | DbDelete (key : string).

Record DbCall : Type := {
  table : Table;
  op : DbOp
}.

Inductive Toast : Type :=
  | ToastSuccess (message : string)
  | ToastError (message : string).

Inductive Error : Type :=
  | ItemNotFound        (* new Error('Item not found') *)
  | Unauthenticated     (* blink.auth.me() rejected *)
  | PersistenceFailure. (* a blink.db call rejected *)

(** What the outside world answers.  Every interaction with it takes the
    answer at the current [tick] and advances the tick, so one [Env] fixes a
    whole run.  [mockInventoryItems] is the demo data of
    [src/data/mockInventory], which is not among the sources: it is a
    parameter.  A [list] call is answered by [None] when it rejects, and
    otherwise by the array it resolves to, [Some None] standing for [null]. *)
Record Env : Type := {
  env_me : nat -> option User;
  env_now : nat -> string;
  env_id : nat -> string;
  env_db_ok : nat -> bool;
  env_items : nat -> option (option (list InventoryItem));
  env_transactions : nat -> option (option (list InventoryTransaction));
  mockInventoryItems : list InventoryItem
}.

(** The provider's state ([useState]) together with what it has done to the
    outside: the store calls issued and the notifications shown. *)
Record World : Type := {
  items : list InventoryItem;
  transactions : list InventoryTransaction;
  loading : bool;
  db_calls : list DbCall;
  toasts : list Toast;
  tick : nat
}.

(** ** The monad of asynchronous operations *)

Inductive Result (A : Type) : Type :=
  | Ok (a : A)
  | Thrown (e : Error).
Arguments Ok {A} a.
Arguments Thrown {A} e.

Definition M (A : Type) : Type := Env -> World -> Result A * World.

Definition ret {A : Type} (a : A) : M A := fun _ w => (Ok a, w).

Definition bind {A B : Type} (m : M A) (k : A -> M B) : M B :=
  fun env w =>
    match m env w with
    | (Ok a, w') => k a env w'
    | (Thrown e, w') => (Thrown e, w')
    end.

Definition throw {A : Type} (e : Error) : M A := fun _ w => (Thrown e, w).

(** [try { body } catch (error) { handler }] *)
Definition try_catch {A : Type} (body : M A) (handler : Error -> M A) : M A :=
  fun env w =>
    match body env w with
    | (Ok a, w') => (Ok a, w')
    | (Thrown e, w') => handler e env w'
    end.

(** [try { body } finally { cleanup }] *)
Definition try_finally {A : Type} (body : M A) (cleanup : M unit) : M A :=
  fun env w =>
    match body env w with
    | (r, w') =>
        match cleanup env w' with
        | (Ok _, w'') => (r, w'')
        | (Thrown e, w'') => (Thrown e, w'')
        end
    end.

Declare Scope ledger_scope.
Delimit Scope ledger_scope with ledger.
Notation "x <- m ;; k" := (bind m (fun x => k))
  (at level 61, m at next level, right associativity) : ledger_scope.
Notation "m ;; k" := (bind m (fun _ => k))
  (at level 61, right associativity) : ledger_scope.
Open Scope ledger_scope.

Definition bump (w : World) : World :=
  {| items := items w; transactions := transactions w; loading := loading w;
     db_calls := db_calls w; toasts := toasts w; tick := S (tick w) |}.

Definition record_call (c : DbCall) (w : World) : World :=
  {| items := items w; transactions := transactions w; loading := loading w;
     db_calls := db_calls w ++ [c]; toasts := toasts w; tick := tick w |}.

(** [await blink.auth.me()] *)
Definition auth_me : M User :=
  fun env w =>
    match env_me env (tick w) with
    | Some user => (Ok user, bump w)
    | None => (Thrown Unauthenticated, bump w)
    end.

(** [new Date().toISOString()] *)
Definition nowISO : M string :=
  fun env w => (Ok (env_now env (tick w)), bump w).

(** [generateId()], that is [Date.now().toString() +
    Math.random().toString(36).substr(2, 9)]: the clock and the random source
    decide the string. *)
Definition generateId : M string :=
  fun env w => (Ok (env_id env (tick w)), bump w).

(** A store call that returns nothing of interest: [create], [update],
    [delete].  The call is issued whether or not the store accepts it. *)
Definition db_write (t : Table) (o : DbOp) : M unit :=
  fun env w =>
    let w' := record_call {| table := t; op := o |} (bump w) in
    if env_db_ok env (tick w) then (Ok tt, w') else (Thrown PersistenceFailure, w').

(** [blink.db.inventoryItems.list(...)] *)
Definition db_list_items (uid : string) : M (option (list InventoryItem)) :=
  fun env w =>
    let w' := record_call {| table := inventoryItems; op := DbList uid None |} (bump w) in
    match env_items env (tick w) with
    | Some l => (Ok l, w')
    | None => (Thrown PersistenceFailure, w')
    end.

(** [blink.db.inventoryTransactions.list(...)] with [limit: 100] *)
Definition db_list_transactions (uid : string) (limit : nat)
  : M (option (list InventoryTransaction)) :=
  fun env w =>
    let w' :=
      record_call {| table := inventoryTransactions; op := DbList uid (Some limit) |}
        (bump w) in
    match env_transactions env (tick w) with
    | Some l => (Ok l, w')
    | None => (Thrown PersistenceFailure, w')
    end.

(** The [items] an operation closes over: those of the render it was created
    in.  Operations are issued one after the other from the current render,
    so this is the state the operation starts from. *)
Definition readItems : M (list InventoryItem) :=
  fun _ w => (Ok (items w), w).

Definition setItems (f : list InventoryItem -> list InventoryItem) : M unit :=
  fun _ w =>
    (Ok tt,
     {| items := f (items w); transactions := transactions w; loading := loading w;
        db_calls := db_calls w; toasts := toasts w; tick := tick w |}).

Definition setTransactions
  (f : list InventoryTransaction -> list InventoryTransaction) : M unit :=
  fun _ w =>
    (Ok tt,
     {| items := items w; transactions := f (transactions w); loading := loading w;
        db_calls := db_calls w; toasts := toasts w; tick := tick w |}).

Definition setLoading (b : bool) : M unit :=
  fun _ w =>
    (Ok tt,
     {| items := items w; transactions := transactions w; loading := b;
        db_calls := db_calls w; toasts := toasts w; tick := tick w |}).

Definition toast (t : Toast) : M unit :=
  fun _ w =>
    (Ok tt,
     {| items := items w; transactions := transactions w; loading := loading w;
        db_calls := db_calls w; toasts := toasts w ++ [t]; tick := tick w |}).

Definition getEnv : M Env := fun env w => (Ok env, w).

(** [answer || []] *)
Definition orEmpty {A : Type} (answer : option (list A)) : list A :=
  match answer with
  | Some l => l
  | None => []
  end.

(** [for (const x of l) { await f(x) }] *)
Fixpoint forEach {A : Type} (f : A -> M unit) (l : list A) : M unit :=
  match l with
  | [] => ret tt
  | x :: rest => f x ;; forEach f rest
  end.

(** [l.map(f)] for an [f] that draws from the outside world. *)
Fixpoint mapM {A B : Type} (f : A -> M B) (l : list A) : M (list B) :=
  match l with
  | [] => ret []
  | x :: rest => y <- f x ;; ys <- mapM f rest ;; ret (y :: ys)
  end.

(** ** The provider's operations ([InventoryProvider]) *)

(** [items.find(i => i.id === id)] *)
Definition findItem (key : string) (l : list InventoryItem) : option InventoryItem :=
  find (fun i => (id i =? key)%string) l.

(** [initializeSampleData]: every failure is logged to the console and
    swallowed. *)
Definition initializeSampleData : M unit :=
  try_catch
    (user <- auth_me ;;
     env <- getEnv ;;
     sampleItems <-
       mapM (fun item =>
               newId <- generateId ;;
               ret (spread item
                      {| p_id := Some newId; p_name := None; p_category := None;
                         p_description := None; p_manufacturer := None;
                         p_catalogNumber := None; p_lotNumber := None;
                         p_quantity := None; p_unit := None; p_location := None;
                         p_storageConditions := None; p_expirationDate := None;
                         p_purchaseDate := None; p_costPerUnit := None;
                         p_supplier := None; p_minimumStockLevel := None;
                         p_barcode := None; p_notes := None;
                         p_userId := Some (user_id user); p_createdAt := None;
                         p_updatedAt := None |}))
            (mockInventoryItems env) ;;
     forEach (fun item => db_write inventoryItems (DbCreate (ItemRecord item)))
       sampleItems ;;
     setItems (fun _ => sampleItems) ;;
     toast (ToastSuccess "Sample inventory data loaded!"))
    (fun _ => ret tt).

(** [loadInventoryData].  [items.length] in the handler is the [items] of the
    render the function was created in: [captured]. *)
Definition loadInventoryData (captured : list InventoryItem) : M unit :=
  setLoading true ;;
  try_finally
    (try_catch
       (user <- auth_me ;;
        inventoryItems <- db_list_items (user_id user) ;;
        inventoryTransactions <- db_list_transactions (user_id user) 100 ;;
        setItems (fun _ => orEmpty inventoryItems) ;;
        setTransactions (fun _ => orEmpty inventoryTransactions))
       (fun _ =>
          if (List.length captured =? 0)%nat then initializeSampleData else ret tt))
    (setLoading false).

Definition addItem (itemData : ItemFields) : M unit :=
  try_catch
    (user <- auth_me ;;
     newId <- generateId ;;
     created <- nowISO ;;
     updated <- nowISO ;;
     let newItem :=
       {| fields := itemData; id := newId; userId := user_id user;
          createdAt := created; updatedAt := updated |} in
     db_write inventoryItems (DbCreate (ItemRecord newItem)) ;;
     setItems (fun prev => prev ++ [newItem]) ;;
     txId <- generateId ;;
     txCreated <- nowISO ;;
     let transaction :=
       {| tx_id := txId;
          itemId := id newItem;
          transactionType := Add;
          quantityChange := quantity newItem;
          previousQuantity := 0%float;
          newQuantity := quantity newItem;
          reason := Some "Initial stock";
          performedBy := performer user;
          tx_userId := user_id user;
          tx_createdAt := txCreated |} in
     db_write inventoryTransactions (DbCreate (TransactionRecord transaction)) ;;
     setTransactions (fun prev => prev ++ [transaction]) ;;
     toast (ToastSuccess "Item added successfully!"))
    (fun error => toast (ToastError "Failed to add item") ;; throw error).

Definition updateItem (key : string) (updates : ItemPatch) : M unit :=
  try_catch
    (now <- nowISO ;;
     let updatedData := withUpdatedAt updates now in
     db_write inventoryItems (DbUpdate key updatedData) ;;
     setItems
       (fun prev =>
          map (fun item =>
                 if (id item =? key)%string then spread item updatedData else item)
            prev) ;;
     toast (ToastSuccess "Item updated successfully!"))
    (fun error => toast (ToastError "Failed to update item") ;; throw error).

Definition deleteItem (key : string) : M unit :=
  try_catch
    (captured <- readItems ;;
     match findItem key captured with
     | None => throw ItemNotFound
     | Some item =>
         db_write inventoryItems (DbDelete key) ;;
         setItems (fun prev => filter (fun item => negb (id item =? key)%string) prev) ;;
         user <- auth_me ;;
         txId <- generateId ;;
         txCreated <- nowISO ;;
         let transaction :=
           {| tx_id := txId;
              itemId := key;
              transactionType := Remove;
              quantityChange := (- quantity item)%float;
              previousQuantity := quantity item;
              newQuantity := 0%float;
              reason := Some "Item deleted";
              performedBy := performer user;
              tx_userId := user_id user;
              tx_createdAt := txCreated |} in
         db_write inventoryTransactions (DbCreate (TransactionRecord transaction)) ;;
         setTransactions (fun prev => prev ++ [transaction]) ;;
         toast (ToastSuccess "Item deleted successfully!")
     end)
    (fun error => toast (ToastError "Failed to delete item") ;; throw error).

(** [quantityChange > 0 ? 'add' : quantityChange < 0 ? 'remove' : 'adjust'] *)
Definition transactionTypeOf (quantityChange : number) : TransactionType :=
  if (0 <? quantityChange)%float then Add
  else if (quantityChange <? 0)%float then Remove
  else Adjust.

(** [updateQuantity(id, newQuantity, reason = 'Manual adjustment')]: an
    omitted (or [undefined]) third argument is [None]. *)
Definition updateQuantity (key : string) (newQuantity : number)
  (reason : option string) : M unit :=
  let reason := match reason with Some r => r | None => "Manual adjustment" end in
  try_catch
    (captured <- readItems ;;
     match findItem key captured with
     | None => throw ItemNotFound
     | Some item =>
         let previousQuantity := quantity item in
         let quantityChange := (newQuantity - previousQuantity)%float in
         updatedAt <- nowISO ;;
         db_write inventoryItems (DbUpdate key (quantityPatch newQuantity updatedAt)) ;;
         setItems
           (fun prev =>
              map (fun item =>
                     if (id item =? key)%string
                     then spread item (quantityPatch newQuantity updatedAt)
                     else item)
                prev) ;;
         user <- auth_me ;;
         let transactionType := transactionTypeOf quantityChange in
         txId <- generateId ;;
         txCreated <- nowISO ;;
         let transaction :=
           {| tx_id := txId;
              itemId := key;
              transactionType := transactionType;
              quantityChange := quantityChange;
              previousQuantity := previousQuantity;
              newQuantity := newQuantity;
              reason := Some reason;
              performedBy := performer user;
              tx_userId := user_id user;
              tx_createdAt := txCreated |} in
         db_write inventoryTransactions (DbCreate (TransactionRecord transaction)) ;;
         setTransactions (fun prev => prev ++ [transaction]) ;;
         toast (ToastSuccess "Quantity updated successfully!")
     end)
    (fun error => toast (ToastError "Failed to update quantity") ;; throw error).

Definition getItemById (key : string) (w : World) : option InventoryItem :=
  find (fun item => (id item =? key)%string) (items w).

Definition getLowStockItems (w : World) : list InventoryItem :=
  filter (fun item : InventoryItem => (quantity item <=? minimumStockLevel item)%float)
    (items w).

(** [refreshData], called from the current render. *)
Definition refreshData : M unit :=
  captured <- readItems ;;
  loadInventoryData captured ;;
  toast (ToastSuccess "Data refreshed!").

(** The state [blink.auth.onAuthStateChanged] reports. *)
Record AuthState : Type := {
  state_user : option User;
  isLoading : bool
}.

(** The listener registered once, by the effect of the first render: the
    [loadInventoryData] it calls is that render's, whose [items] is the
    initial empty array. *)
Definition onAuthStateChanged (state : AuthState) : M unit :=
  match state_user state with
  | Some _ => if negb (isLoading state) then loadInventoryData [] else ret tt
  | None =>
      setItems (fun _ => []) ;;
      setTransactions (fun _ => []) ;;
      setLoading false
  end.

(** *** The part of JavaScript's [Date] that [getExpiringItems] relies on

    The built-ins are those of ECMA-262 (Date Objects).  A time value is a
    number of milliseconds since the epoch; [None] is an Invalid Date, whose
    time value is NaN.  A valid time value is an integer of at most 8.64e15
    in absolute value, and so is every intermediate result that leads to one:
    all are below 2^53, where the runtime's arithmetic on numbers is exact.
    It is therefore written on [Z], and a result out of that range is
    invalid. *)

Definition msPerDay : Z := 86400000.

(** [Day(t)], the number of the day [t] falls on: floor(t / msPerDay). *)
Definition Day (t : Z) : Z := (t / msPerDay)%Z.

(** [TimeWithinDay(t)]: t modulo msPerDay. *)
Definition TimeWithinDay (t : Z) : Z := (t mod msPerDay)%Z.

(** The day within its year, from 0, of the day numbered [eraDay] in a cycle
    of 400 years (146 097 days), for years that start on 1 March: the leap
    day is then the last day of a year.  A cycle is four centuries of 36 524
    days and one more day; a century is periods of four years, of 1461 days;
    a year has 365 days, and the day left over at the end of a period or of
    the cycle is the leap day of its last year. *)
Definition dayOfMarchYear (eraDay : Z) : Z :=
  (let century := Z.min (eraDay / 36524) 3 in
   let dayOfCentury := eraDay - 36524 * century in
   let dayOfPeriod := dayOfCentury mod 1461 in
   let year := Z.min (dayOfPeriod / 365) 3 in
   dayOfPeriod - 365 * year)%Z.

(** The day of the month, from 1, of the day numbered [yearDay] in a year
    that starts on 1 March: the months from March on have 31, 30, 31, 30, 31,
    31, 30, 31, 30, 31, 31 and the remaining days, so month [m] (from 0)
    starts on day (153 m + 2) / 5. *)
Definition dateOfYearDay (yearDay : Z) : Z :=
  (let month := (5 * yearDay + 2) / 153 in
   yearDay - (153 * month + 2) / 5 + 1)%Z.

(** [DateFromTime(t)], the day of the month of [t], from 1 to 31.  Day 0, the
    first of January 1970, is 719 468 days after 1 March of the year 0, the
    first day of a cycle of 400 years. *)
Definition DateFromTime (t : Z) : Z :=
  dateOfYearDay (dayOfMarchYear ((Day t + 719468) mod 146097)%Z).

(** What the host, the browser and its settings, decides. *)
Record DateRuntime : Type := {
  (** the time value of [new Date(s)] *)
  date_parse : string -> option Z;
  (** [LocalTZA(t, isUTC)]: the offset of local time from UTC, in
      milliseconds, at the instant [t], given in UTC or in local time *)
  LocalTZA : Z -> bool -> Z
}.

(** [LocalTime(t)] *)
Definition LocalTime (rt : DateRuntime) (t : Z) : Z := (t + LocalTZA rt t true)%Z.

(** [UTC(t)] *)
Definition UTC (rt : DateRuntime) (t : Z) : Z := (t - LocalTZA rt t false)%Z.

(** [TimeClip(time)]: a time value beyond 8.64e15 ms is not a date. *)
Definition TimeClip (time : Z) : option Z :=
  if (Z.abs time <=? 8640000000000000)%Z then Some time else None.

(** The whole number of days in a number, rounding towards zero, as
    [MakeDay] reads its [date] argument: [ToIntegerOrInfinity] of a finite
    number; [None] for NaN and the infinities, of which [MakeDay] makes NaN. *)
Definition wholeDays (d : number) : option Z :=
  match Prim2SF d with
  | S754_zero _ => Some 0%Z
  | S754_finite s m e => Some (cond_Zopp s (Z.shiftl (Z.pos m) e))
  | S754_infinity _ | S754_nan => None
  end.

(** The number that is the integer [n], for [n] from 0 to 2^53. *)
Definition numberOfInteger (n : Z) : number := PrimFloat.of_uint63 (Uint63.of_Z n).

(** [d.getDate()] for a date [d] of time value [t]:
    [DateFromTime(LocalTime(t))]. *)
Definition getDate (rt : DateRuntime) (t : Z) : Z := DateFromTime (LocalTime rt t).

(** [d.setDate(date)] for a date [d] of time value [t]: the time value [d]
    is left with,
    [TimeClip(UTC(MakeDate(MakeDay(YearFromTime(t'), MonthFromTime(t'), date),
    TimeWithinDay(t'))))] for [t' = LocalTime(t)].  [MakeDay(y, m, date)] is
    the number of the first day of month [m] of year [y], plus the whole
    number of days in [date], minus one; the first day of the month of [t']
    is day [Day(t') - DateFromTime(t') + 1].  [MakeDate(day, time)] is
    [day * msPerDay + time]. *)
Definition setDate (rt : DateRuntime) (t : Z) (date : number) : option Z :=
  let local := LocalTime rt t in
  match wholeDays date with
  | None => None
  | Some dt =>
      let day := (Day local - DateFromTime local + 1 + dt - 1)%Z in
      let newDate := (day * msPerDay + TimeWithinDay local)%Z in
      TimeClip (UTC rt newDate)
  end.

(** [cutoffDate.setDate(cutoffDate.getDate() + days)] on the [cutoffDate]
    created at [now]: the time value it is left with.  The sum is one of
    numbers. *)
Definition date_addDays (rt : DateRuntime) (now : Z) (days : number) : option Z :=
  setDate rt now (numberOfInteger (getDate rt now) + days)%float.

(** [a <= b] on two dates: a comparison with NaN is false. *)
Definition date_leb (a b : option Z) : bool :=
  match a, b with
  | Some x, Some y => (x <=? y)%Z
  | _, _ => false
  end.

(** [getExpiringItems(days = 30)], with [now] the time value of [new Date()].
    [!item.expirationDate] holds of [undefined] and of the empty string. *)
Definition getExpiringItems (rt : DateRuntime) (now : Z) (days : option number)
  (w : World) : list InventoryItem :=
  let days := match days with Some d => d | None => 30%float end in
  let cutoffDate := date_addDays rt now days in
  filter
    (fun item : InventoryItem =>
       match expirationDate item with
       | None => false
       | Some s =>
           if (s =? "")%string then false
           else
             let expDate := date_parse rt s in
             date_leb expDate cutoffDate
       end)
    (items w).

(** ** Runs of the ledger *)

(** The operations the provider offers that touch the state. *)
Inductive Operation : Type :=
  | AuthStateChanged (state : AuthState)
  | RefreshData
  | AddItem (itemData : ItemFields)
  | UpdateItem (key : string) (updates : ItemPatch)
  | DeleteItem (key : string)
  | UpdateQuantity (key : string) (newQuantity : number) (reason : option string).

Definition perform (o : Operation) : M unit :=
  match o with
  | AuthStateChanged state => onAuthStateChanged state
  | RefreshData => refreshData
  | AddItem itemData => addItem itemData
  | UpdateItem key updates => updateItem key updates
  | DeleteItem key => deleteItem key
  | UpdateQuantity key newQuantity reason => updateQuantity key newQuantity reason
  end.

(** The state an operation leaves behind, whether it resolved or threw. *)
Definition step (env : Env) (w : World) (o : Operation) : World :=
  snd (perform o env w).

(** The operations of a session, one after the other from a single control
    flow. *)
Definition run (env : Env) (ops : list Operation) (w : World) : World :=
  fold_left (step env) ops w.

(** The provider on mount: nothing loaded yet. *)
Definition initialWorld : World :=
  {| items := []; transactions := []; loading := true; db_calls := [];
     toasts := []; tick := 0 |}.

(** The four operations that change the ledger. *)
Definition isMutation (o : Operation) : bool :=
  match o with
  | AuthStateChanged _ | RefreshData => false
  | _ => true
  end.

(** The three operations that change a quantity. *)
Definition changesQuantity (o : Operation) : bool :=
  match o with
  | AddItem _ | DeleteItem _ | UpdateQuantity _ _ _ => true
  | _ => false
  end.

(** ** Predicates the properties are stated with *)

(** [x >= 0] on numbers. *)
Definition nonNegative (x : number) : Prop := (0 <=? x)%float = true.

Definition itemNonNegative (i : ItemFields) : Prop :=
  nonNegative (quantity i) /\ nonNegative (minimumStockLevel i).

(** The numeric arguments of an operation are non-negative: what the add-item
    form's schema checks before it calls [addItem]. *)
Definition argumentsNonNegative (o : Operation) : Prop :=
  match o with
  | AddItem itemData => itemNonNegative itemData
  | UpdateItem _ updates =>
      (forall q, p_quantity updates = Some q -> nonNegative q) /\
      (forall m, p_minimumStockLevel updates = Some m -> nonNegative m)
  | UpdateQuantity _ newQuantity _ => nonNegative newQuantity
  | DeleteItem _ => True
  | AuthStateChanged _ | RefreshData => True
  end.

(** The ledger equation of a transaction record, with the numbers' own
    addition and equality: [previousQuantity + quantityChange === newQuantity]. *)
Definition balanced (t : InventoryTransaction) : bool :=
  (previousQuantity t + quantityChange t =? newQuantity t)%float.

(** The exact value of a finite number, as a multiple of 2^-1074 (the
    smallest positive number); [None] for NaN and the infinities. *)
Definition exactValue (x : number) : option Z :=
  match Prim2SF x with
  | S754_zero _ => Some 0%Z
  | S754_finite s m e => Some (cond_Zopp s (Z.pos m * 2 ^ (e + 1074)))%Z
  | S754_infinity _ | S754_nan => None
  end.

(** The ledger equation read over the reals, on the values the record
    stores. *)
Definition balancedExactly (t : InventoryTransaction) : bool :=
  match exactValue (previousQuantity t), exactValue (quantityChange t),
        exactValue (newQuantity t) with
  | Some p, Some c, Some n => (p + c =? n)%Z
  | _, _, _ => false
  end.

(** Timestamps in descending order: ISO-8601 strings compare as their
    instants do. *)
Fixpoint descending (stamps : list string) : bool :=
  match stamps with
  | a :: (b :: _) as rest => String.leb b a && descending rest
  | _ => true
  end.

(** Most recently created first. *)
Definition itemsNewestFirst (w : World) : bool :=
  descending (map createdAt (items w)).

Definition transactionsNewestFirst (w : World) : bool :=
  descending (map tx_createdAt (transactions w)).

(** The store calls an operation issued: those logged after [w]. *)
Definition callsSince (w w' : World) : list DbCall :=
  skipn (List.length (db_calls w)) (db_calls w').

(** A store call that removes or rewrites a record. *)
Definition isDestructive (c : DbCall) : bool :=
  match op c with
  | DbUpdate _ _ | DbDelete _ => true
  | DbList _ _ | DbCreate _ => false
  end.

(** [{ ...item, quantity: q, updatedAt: t }], property by property. *)
Definition requantified (item : InventoryItem) (q : number) (t : string)
  : InventoryItem :=
  {| fields :=
       {| name := name item; category := category item;
          description := description item; manufacturer := manufacturer item;
          catalogNumber := catalogNumber item; lotNumber := lotNumber item;
          quantity := q; unit_ := unit_ item; location := location item;
          storageConditions := storageConditions item;
          expirationDate := expirationDate item; purchaseDate := purchaseDate item;
          costPerUnit := costPerUnit item; supplier := supplier item;
          minimumStockLevel := minimumStockLevel item; barcode := barcode item;
          notes := notes item |};
     id := id item; userId := userId item; createdAt := createdAt item;
     updatedAt := t |}.

(** [item'] is [{ ...item, ...updates, updatedAt: t }], property by property. *)
Definition mergedInto (item : InventoryItem) (updates : ItemPatch) (t : string)
  (item' : InventoryItem) : Prop :=
  id item' = overlay (p_id updates) (id item) /\
  name item' = overlay (p_name updates) (name item) /\
  category item' = overlay (p_category updates) (category item) /\
  description item' = overlay (p_description updates) (description item) /\
  manufacturer item' = overlay (p_manufacturer updates) (manufacturer item) /\
  catalogNumber item' = overlay (p_catalogNumber updates) (catalogNumber item) /\
  lotNumber item' = overlay (p_lotNumber updates) (lotNumber item) /\
  quantity item' = overlay (p_quantity updates) (quantity item) /\
  unit_ item' = overlay (p_unit updates) (unit_ item) /\
  location item' = overlay (p_location updates) (location item) /\
  storageConditions item' =
    overlay (p_storageConditions updates) (storageConditions item) /\
  expirationDate item' = overlay (p_expirationDate updates) (expirationDate item) /\
  purchaseDate item' = overlay (p_purchaseDate updates) (purchaseDate item) /\
  costPerUnit item' = overlay (p_costPerUnit updates) (costPerUnit item) /\
  supplier item' = overlay (p_supplier updates) (supplier item) /\
  minimumStockLevel item' =
    overlay (p_minimumStockLevel updates) (minimumStockLevel item) /\
  barcode item' = overlay (p_barcode updates) (barcode item) /\
  notes item' = overlay (p_notes updates) (notes item) /\
  userId item' = overlay (p_userId updates) (userId item) /\
  createdAt item' = overlay (p_createdAt updates) (createdAt item) /\
  updatedAt item' = t.

(** An operation threw "not found" and did nothing else: the in-memory
    collections are as they were, no store call was issued and the outside
    world was not consulted. *)
Definition refusedNotFound (w : World) (outcome : Result unit * World) : Prop :=
  fst outcome = Thrown ItemNotFound /\
  items (snd outcome) = items w /\
  transactions (snd outcome) = transactions w /\
  db_calls (snd outcome) = db_calls w /\
  tick (snd outcome) = tick w.


(** The argument of [getExpiringItems], defaulting to 30. *)
Definition withinDays (days : option number) : number :=
  match days with
  | Some d => d
  | None => 30%float
  end.

(** A store call that removes or rewrites a transaction record. *)
Definition rewritesTransactions (c : DbCall) : bool :=
  match table c with
  | inventoryTransactions => isDestructive c
  | inventoryItems => false
  end.

(** ** Relations between the state before and after an operation *)

(** [m] keeps [R]: whatever the outside world answers and whether [m]
    resolves or throws, the state it leaves is [R]-related to the state it
    started in. *)
Definition keeps (R : World -> World -> Prop) {A : Type} (m : M A) : Prop :=
  forall env w, R w (snd (m env w)).

(** The store only received further calls, none of which rewrites a
    transaction record. *)
Definition storeLogGrows (w w' : World) : Prop :=
  exists calls,
    db_calls w' = db_calls w ++ calls /\
    Forall (fun c => rewritesTransactions c = false) calls.

(** The in-memory transactions only received further entries at the end. *)
Definition transactionsGrow (w w' : World) : Prop :=
  exists suffix, transactions w' = transactions w ++ suffix.

(** Non-negative stock levels are passed on. *)
Definition stockStaysNonNegative (w w' : World) : Prop :=
  Forall (fun i : InventoryItem => itemNonNegative i) (items w) ->
  Forall (fun i : InventoryItem => itemNonNegative i) (items w').

(** ** A laboratory session, for the examples *)

Definition alice : User :=
  {| user_id := "user_1"; email := Some "alice@lab.example" |}.

(** A reagent with the given name, quantity, minimum stock level and
    expiration date; every other optional field is left out. *)
Definition reagentFields (label : string) (q m : number) (expires : option string)
  : ItemFields :=
  {| name := label; category := reagent; description := None; manufacturer := None;
     catalogNumber := None; lotNumber := None; quantity := q; unit_ := "ml";
     location := None; storageConditions := None; expirationDate := expires;
     purchaseDate := None; costPerUnit := None; supplier := None;
     minimumStockLevel := m; barcode := None; notes := None |}.

(** An item of alice's as the store holds it. *)
Definition storedItem (key created : string) (f : ItemFields) : InventoryItem :=
  {| fields := f; id := key; userId := "user_1"; createdAt := created;
     updatedAt := created |}.

(** The provider holding the given items, with nothing else done yet. *)
Definition worldOf (l : list InventoryItem) : World :=
  {| items := l; transactions := []; loading := false; db_calls := [];
     toasts := []; tick := 0 |}.

Definition digit (n : nat) : string :=
  String (Ascii.ascii_of_nat (48 + n mod 10)) "".

(** Three decimal digits. *)
Definition millis (n : nat) : string :=
  (digit (n / 100) ++ digit (n / 10) ++ digit n)%string.

(** A clock that has advanced by one millisecond at every reading. *)
Definition tickingClock (n : nat) : string :=
  ("2024-03-10T12:00:00." ++ millis n ++ "Z")%string.

(** A clock that is read several times within one millisecond. *)
Definition frozenClock (n : nat) : string := "2024-03-10T12:00:00.000Z".

(** An outside world in which alice is signed in and every call succeeds;
    the store answers a [list] with the given records. *)
Definition sessionEnv (clock : nat -> string) (storedItems : list InventoryItem)
  (storedTransactions : list InventoryTransaction) : Env :=
  {| env_me := fun _ => Some alice;
     env_now := clock;
     env_id := fun n => ("1710072000000k3x9qa" ++ millis n)%string;
     env_db_ok := fun _ => true;
     env_items := fun _ => Some (Some storedItems);
     env_transactions := fun _ => Some (Some storedTransactions);
     mockInventoryItems := [] |}.

(** Dates as a browser in the UTC time zone computes them; the date-only
    strings of the examples parse to their midnight. *)
Definition utcDates : DateRuntime :=
  {| date_parse := fun s =>
       if (s =? "2024-02-01")%string then Some 1706745600000%Z
       else if (s =? "2024-03-09")%string then Some 1709942400000%Z
       else if (s =? "2024-03-10")%string then Some 1710028800000%Z
       else if (s =? "2024-04-01")%string then Some 1711929600000%Z
       else if (s =? "2024-05-01")%string then Some 1714521600000%Z
       else None;
     LocalTZA := fun _ _ => 0%Z |}.

(** 2024-03-10T12:00:00.000Z *)
Definition noon_2024_03_10 : Z := 1710072000000.

(** A session whose clock advances between any two readings. *)
Definition labEnv : Env := sessionEnv tickingClock [] [].

(** A session whose clock is read several times within one millisecond. *)
Definition quickEnv : Env := sessionEnv frozenClock [] [].

(** The example of the specification: 50 ml of buffer, minimum 10. *)
Definition stockWorld : World :=
  worldOf [storedItem "a" "2024-03-01T09:00:00.000Z"
             (reagentFields "PBS Buffer" 50 10 None)].

(** 0.7 ml of buffer. *)
Definition bufferWorld : World :=
  worldOf [storedItem "a" "2024-03-01T09:00:00.000Z"
             (reagentFields "PBS Buffer" 0.7 0.2 None)].

Definition lowBuffer : InventoryItem :=
  storedItem "a" "2024-03-01T09:00:00.000Z" (reagentFields "PBS Buffer" 5 10 None).

Definition fullTrypsin : InventoryItem :=
  storedItem "b" "2024-03-05T09:00:00.000Z" (reagentFields "Trypsin" 40 10 None).

(** The transaction the store holds for the creation of an item. *)
Definition initialStock (key : string) (item : InventoryItem) : InventoryTransaction :=
  {| tx_id := key; itemId := id item; transactionType := Add;
     quantityChange := quantity item; previousQuantity := 0%float;
     newQuantity := quantity item; reason := Some "Initial stock";
     performedBy := "alice@lab.example"; tx_userId := "user_1";
     tx_createdAt := createdAt item |}.

(** A store that already holds two items and their transactions, and lists
    them as asked: most recently created first. *)
Definition stockedEnv : Env :=
  sessionEnv tickingClock [fullTrypsin; lowBuffer]
    [initialStock "tb" fullTrypsin; initialStock "ta" lowBuffer].

(** alice has signed in. *)
Definition signedIn : AuthState :=
  {| state_user := Some alice; isLoading := false |}.

(** [{ location: place }] *)
Definition relocate (place : string) : ItemPatch :=
  {| p_id := None; p_name := None; p_category := None; p_description := None;
     p_manufacturer := None; p_catalogNumber := None; p_lotNumber := None;
     p_quantity := None; p_unit := None; p_location := Some (Some place);
     p_storageConditions := None; p_expirationDate := None;
     p_purchaseDate := None; p_costPerUnit := None; p_supplier := None;
     p_minimumStockLevel := None; p_barcode := None; p_notes := None;
     p_userId := None; p_createdAt := None; p_updatedAt := None |}.

Definition expiredTrypsin : InventoryItem :=
  storedItem "t" "2024-01-15T09:00:00.000Z"
    (reagentFields "Trypsin" 40 10 (Some "2024-03-09")).

Definition aprilKit : InventoryItem :=
  storedItem "k" "2024-01-16T09:00:00.000Z"
    (reagentFields "ELISA Kit" 3 1 (Some "2024-04-01")).

Definition mayKit : InventoryItem :=
  storedItem "m" "2024-01-17T09:00:00.000Z"
    (reagentFields "ELISA Kit" 3 1 (Some "2024-05-01")).

Definition undatedBuffer : InventoryItem :=
  storedItem "u" "2024-01-18T09:00:00.000Z" (reagentFields "PBS Buffer" 50 10 None).

(** On 2024-03-10: one item expired yesterday, one expires within 30 days,
    one later, one never. *)
Definition shelf : World := worldOf [expiredTrypsin; aprilKit; mayKit; undatedBuffer].

(** ** Further predicates *)

(** The lookups of every id but [key] give what they gave. *)
Definition otherLookupsKept (key : string) (w w' : World) : Prop :=
  forall other, other <> key -> getItemById other w' = getItemById other w.

(** Every lookup that found an item still finds the same item. *)
Definition lookupsKept (w w' : World) : Prop :=
  forall key item, getItemById key w = Some item -> getItemById key w' = Some item.


(** The tick at which a mutation that gets that far issues its first store
    write. *)
Definition firstWriteTick (o : Operation) (w : World) : nat :=
  match o with
  | AddItem _ => 4 + tick w
  | UpdateItem _ _ => 1 + tick w
  | DeleteItem _ => tick w
  | UpdateQuantity _ _ _ => 1 + tick w
  | AuthStateChanged _ | RefreshData => tick w
  end.

(** ** The inventory table ([src/components/inventory/InventoryTable.tsx]) *)

(** The key of a category in [CATEGORY_LABELS]: the string the category is
    in TypeScript. *)
Definition categoryKey (c : InventoryCategory) : string :=
  match c with
  | reagent => "reagent"
  | diluent => "diluent"
  | antibody_conjugate => "antibody_conjugate"
  | unconjugated_antibody => "unconjugated_antibody"
  | calibrator => "calibrator"
  | reaction_kit => "reaction_kit"
  end.

(** [s.includes(sub)] *)
Fixpoint includes (s sub : string) : bool :=
  if String.prefix sub s then true
  else
    match s with
    | EmptyString => false
    | String _ rest => includes rest sub
    end.

Module InventoryTable.

(** The component's [useState] cells.  [App] renders the table without the
    [onEditItem] and [onDeleteItem] props, so the optional calls to them do
    nothing. *)
Record State : Type := {
  searchTerm : string;
  categoryFilter : string;
  editingItem : option InventoryItem;
  deletingItemId : option string;
  quantityDialogItem : option InventoryItem;
  newQuantity : number;
  quantityReason : string
}.

(** The component on mount. *)
Definition initialState : State :=
  {| searchTerm := ""; categoryFilter := "all"; editingItem := None;
     deletingItemId := None; quantityDialogItem := None; newQuantity := 0%float;
     quantityReason := "" |}.

(** [filteredItems], with [toLowerCase] the string method of that name.  An
    optional chain on an absent property is [undefined], which is falsy. *)
Definition filteredItems (toLowerCase : string -> string) (s : State)
  (items : list InventoryItem) : list InventoryItem :=
  filter
    (fun item : InventoryItem =>
       let matchesSearch :=
         includes (toLowerCase (name item)) (toLowerCase (searchTerm s))
         || match catalogNumber item with
            | Some c => includes (toLowerCase c) (toLowerCase (searchTerm s))
            | None => false
            end
         || match manufacturer item with
            | Some m => includes (toLowerCase m) (toLowerCase (searchTerm s))
            | None => false
            end in
       let matchesCategory :=
         (categoryFilter s =? "all")%string
         || (categoryKey (category item) =? categoryFilter s)%string in
       matchesSearch && matchesCategory)
    items.

(** [openQuantityDialog] *)
Definition openQuantityDialog (item : InventoryItem) (s : State) : State :=
  {| searchTerm := searchTerm s; categoryFilter := categoryFilter s;
     editingItem := editingItem s; deletingItemId := deletingItemId s;
     quantityDialogItem := Some item; newQuantity := quantity item;
     quantityReason := "" |}.

(** [handleQuantityUpdate]: the error of a failed update is logged to the
    console and goes no further. *)
Definition handleQuantityUpdate (s : State) (env : Env) (w : World) : State * World :=
  match quantityDialogItem s with
  | None => (s, w)
  | Some item =>
      let reason :=
        if (quantityReason s =? "")%string then "Manual adjustment"
        else quantityReason s in
      match updateQuantity (id item) (newQuantity s) (Some reason) env w with
      | (Ok _, w') =>
          ({| searchTerm := searchTerm s; categoryFilter := categoryFilter s;
              editingItem := editingItem s; deletingItemId := deletingItemId s;
              quantityDialogItem := None; newQuantity := 0%float;
              quantityReason := "" |},
           w')
      | (Thrown _, w') => (s, w')
      end
  end.



End InventoryTable.

(** ** The add-item form ([src/components/inventory/AddItemForm.tsx]) *)

Module AddItemForm.

(** The values the form holds and the [isSubmitting] cell. *)
Record State : Type := {
  values : ItemFields;
  isSubmitting : bool
}.



End AddItemForm.

(** ** The dashboard ([src/components/dashboard/Dashboard.tsx]) *)

Module Dashboard.

Definition category_eqb (a b : InventoryCategory) : bool :=
  (categoryKey a =? categoryKey b)%string.

(** [x || 0] on a property that may be absent: [undefined], [0] and NaN are
    falsy. *)
Definition orZero (x : option number) : number :=
  match x with
  | Some v => if (v =? 0)%float || is_nan v then 0%float else v
  | None => 0%float
  end.

(** [categoryCounts]: the object built by the [reduce], as the value under
    each category's key, [None] where the key is absent. *)
Definition categoryCounts (items : list InventoryItem)
  : InventoryCategory -> option number :=
  fold_left
    (fun acc (item : InventoryItem) =>
       fun c =>
         if category_eqb c (category item)
         then Some (orZero (acc (category item)) + 1)%float
         else acc c)
    items (fun _ => None).

Definition allCategories : list InventoryCategory :=
  [reagent; diluent; antibody_conjugate; unconjugated_antibody; calibrator;
   reaction_kit].

(** [Object.keys(categoryCounts).length === 0]: the "No items in inventory
    yet" notice is shown. *)
Definition noItemsNotice (items : list InventoryItem) : bool :=
  forallb
    (fun c => match categoryCounts items c with Some _ => false | None => true end)
    allCategories.

End Dashboard.

(** ** Further examples and helpers for the properties *)

(** An outside world in which the store rejects the call made at the given
    tick and accepts every other. *)
Definition rejectingAt (n : nat) : Env :=
  {| env_me := fun _ => Some alice;
     env_now := tickingClock;
     env_id := fun k => ("1710072000000k3x9qa" ++ millis k)%string;
     env_db_ok := fun k => negb (k =? n)%nat;
     env_items := fun _ => Some (Some []);
     env_transactions := fun _ => Some (Some []);
     mockInventoryItems := [] |}.


(** A store call that lists a table. *)
Definition isList (c : DbCall) : bool :=
  match op c with
  | DbList _ _ => true
  | _ => false
  end.

(** An outside world in which the store rejects every call. *)
Definition storeDown : Env :=
  {| env_me := fun _ => Some alice;
     env_now := tickingClock;
     env_id := fun k => ("1710072000000k3x9qa" ++ millis k)%string;
     env_db_ok := fun _ => false;
     env_items := fun _ => None;
     env_transactions := fun _ => None;
     mockInventoryItems := [lowBuffer; fullTrypsin] |}.



(** An outside world whose id generator always returns the same id. *)
Definition collidingEnv : Env :=
  {| env_me := fun _ => Some alice;
     env_now := tickingClock;
     env_id := fun _ => "a";
     env_db_ok := fun _ => true;
     env_items := fun _ => Some (Some []);
     env_transactions := fun _ => Some (Some []);
     mockInventoryItems := [] |}.





(** * Properties *)

(** ** Arithmetic of numbers

    The facts about binary64 arithmetic the ledger needs, from the
    specification of the primitive operations ([FloatAxioms]). *)

Module NumberFacts.

Local Open Scope float_scope.

Lemma Prim2SF_zero : Prim2SF 0 = S754_zero false.
Proof. reflexivity. Qed.

(** [q - 0] is [q], signed zeros and NaN included. *)
Lemma sub_zero_r (q : number) : q - 0 = q.
Proof.
  apply Prim2SF_inj. rewrite sub_spec, Prim2SF_zero.
  destruct (Prim2SF q) as [s | s | | s m e]; try reflexivity.
  destruct s; reflexivity.
Qed.

Lemma ltb_zero_asym (q : number) : (q <? 0) = true -> (0 <? q) = false.
Proof.
  rewrite !ltb_spec, Prim2SF_zero.
  destruct (Prim2SF q) as [s | s | | s m e]; try destruct s; cbn; congruence.
Qed.

Lemma eqb_zero_not_ltb (q : number) :
  (q =? 0) = true -> (0 <? q) = false /\ (q <? 0) = false.
Proof.
  rewrite FloatAxioms.eqb_spec, !ltb_spec, Prim2SF_zero.
  destruct (Prim2SF q) as [s | s | | s m e]; try destruct s; cbn; intuition congruence.
Qed.

(** [0 + q === q] unless [q] is NaN. *)
Lemma add_zero_l (q : number) : is_nan q = false -> (0 + q =? q) = true.
Proof.
  unfold is_nan.
  rewrite negb_false_iff, !FloatAxioms.eqb_spec, add_spec, Prim2SF_zero.
  destruct (Prim2SF q) as [s | s | | s m e]; try destruct s; cbn; congruence.
Qed.

(** [q + (-q) === 0] for a finite [q]; for an infinite one the sum is NaN. *)
Lemma add_opp_diag (q : number) : is_finite q = true -> (q + - q =? 0) = true.
Proof.
  unfold is_finite, is_nan, is_infinity.
  rewrite negb_true_iff, orb_false_iff, negb_false_iff, !FloatAxioms.eqb_spec,
    add_spec, opp_spec, abs_spec, Prim2SF_zero.
  change (Prim2SF infinity) with (S754_infinity false).
  destruct (Prim2SF q) as [s | s | | s m e];
    [ destruct s; cbn; intuition congruence
    | destruct s; cbn; intuition congruence
    | cbn; intuition congruence
    | ].
  intros _. unfold SF64add, SFadd, SFopp.
  rewrite Z.min_id.
  set (p := fst (shl_align m e e)).
  assert (E : (cond_Zopp s (Z.pos p) + cond_Zopp (negb s) (Z.pos p))%Z = 0%Z)
    by (destruct s; unfold cond_Zopp, negb; lia).
  rewrite E. reflexivity.
Qed.

(** [-q === 0 - q] unless [q] is NaN. *)
Lemma opp_eqb_zero_sub (q : number) :
  is_nan (- q) = false -> (- q =? 0 - q) = true.
Proof.
  unfold is_nan.
  rewrite negb_false_iff, !FloatAxioms.eqb_spec, sub_spec, opp_spec, Prim2SF_zero.
  destruct (Prim2SF q) as [s | s | | s m e]; try destruct s; cbn; congruence.
Qed.

(** A number that is not NaN equals itself. *)
Lemma eqb_refl (q : number) : is_nan q = false -> (q =? q) = true.
Proof. unfold is_nan. now rewrite negb_false_iff. Qed.

End NumberFacts.

(** ** Reasoning about operations *)

Ltac unfold_m :=
  unfold try_catch, try_finally, bind, ret, throw, auth_me, nowISO, generateId,
    db_write, db_list_items, db_list_transactions, readItems, setItems,
    setTransactions, setLoading, toast, getEnv, record_call, bump in *.

(** Case analysis on the next answer of the outside world that the
    evaluation in [H] is waiting for. *)
Ltac ask_env H :=
  match type of H with
  | context [match env_me ?e ?n with _ => _ end] =>
      destruct (env_me e n) eqn:?; cbn in H
  | context [match env_db_ok ?e ?n with _ => _ end] =>
      destruct (env_db_ok e n) eqn:?; cbn in H
  | context [match env_items ?e ?n with _ => _ end] =>
      destruct (env_items e n) eqn:?; cbn in H
  | context [match env_transactions ?e ?n with _ => _ end] =>
      destruct (env_transactions e n) eqn:?; cbn in H
  end.

(** *** What a resolved operation did *)

Lemma addItem_ok env w itemData w' :
  addItem itemData env w = (Ok tt, w') ->
  exists user,
    env_me env (tick w) = Some user /\
    let newItem :=
      {| fields := itemData; id := env_id env (1 + tick w); userId := user_id user;
         createdAt := env_now env (2 + tick w);
         updatedAt := env_now env (3 + tick w) |} in
    let transaction :=
      {| tx_id := env_id env (5 + tick w); itemId := env_id env (1 + tick w);
         transactionType := Add; quantityChange := quantity itemData;
         previousQuantity := 0%float; newQuantity := quantity itemData;
         reason := Some "Initial stock"; performedBy := performer user;
         tx_userId := user_id user; tx_createdAt := env_now env (6 + tick w) |} in
    items w' = items w ++ [newItem] /\
    transactions w' = transactions w ++ [transaction] /\
    db_calls w' =
      db_calls w ++
      [ {| table := inventoryItems; op := DbCreate (ItemRecord newItem) |};
        {| table := inventoryTransactions;
           op := DbCreate (TransactionRecord transaction) |} ].
Proof.
  unfold addItem. unfold_m. cbn. intros H.
  repeat ask_env H; try discriminate.
  inversion H; subst; clear H. cbn.
  eexists; split; [reflexivity|]. rewrite <- app_assoc. repeat split.
Qed.

Lemma deleteItem_ok env w key w' :
  deleteItem key env w = (Ok tt, w') ->
  exists item user,
    findItem key (items w) = Some item /\
    env_me env (1 + tick w) = Some user /\
    let transaction :=
      {| tx_id := env_id env (2 + tick w); itemId := key;
         transactionType := Remove; quantityChange := (- quantity item)%float;
         previousQuantity := quantity item; newQuantity := 0%float;
         reason := Some "Item deleted"; performedBy := performer user;
         tx_userId := user_id user; tx_createdAt := env_now env (3 + tick w) |} in
    items w' = filter (fun i => negb (id i =? key)%string) (items w) /\
    transactions w' = transactions w ++ [transaction] /\
    db_calls w' =
      db_calls w ++
      [ {| table := inventoryItems; op := DbDelete key |};
        {| table := inventoryTransactions;
           op := DbCreate (TransactionRecord transaction) |} ].
Proof.
  unfold deleteItem. unfold_m. cbn. intros H.
  destruct (findItem key (items w)) as [item|] eqn:Hfind; cbn in H; [|discriminate].
  repeat ask_env H; try discriminate.
  inversion H; subst; clear H. cbn.
  do 2 eexists; repeat split; try reflexivity. now rewrite <- app_assoc.
Qed.

Lemma updateQuantity_ok env w key q r w' :
  updateQuantity key q r env w = (Ok tt, w') ->
  exists item user,
    findItem key (items w) = Some item /\
    env_me env (2 + tick w) = Some user /\
    let updatedAt := env_now env (tick w) in
    let transaction :=
      {| tx_id := env_id env (3 + tick w); itemId := key;
         transactionType := transactionTypeOf (q - quantity item)%float;
         quantityChange := (q - quantity item)%float;
         previousQuantity := quantity item; newQuantity := q;
         reason := Some (match r with Some s => s | None => "Manual adjustment" end);
         performedBy := performer user;
         tx_userId := user_id user; tx_createdAt := env_now env (4 + tick w) |} in
    items w' =
      map (fun i =>
             if (id i =? key)%string then spread i (quantityPatch q updatedAt) else i)
        (items w) /\
    transactions w' = transactions w ++ [transaction] /\
    db_calls w' =
      db_calls w ++
      [ {| table := inventoryItems; op := DbUpdate key (quantityPatch q updatedAt) |};
        {| table := inventoryTransactions;
           op := DbCreate (TransactionRecord transaction) |} ].
Proof.
  unfold updateQuantity. unfold_m. cbn. intros H.
  destruct (findItem key (items w)) as [item|] eqn:Hfind; cbn in H; [|discriminate].
  repeat ask_env H; try discriminate.
  inversion H; subst; clear H. cbn.
  do 2 eexists; repeat split; try reflexivity. now rewrite <- app_assoc.
Qed.

Lemma updateItem_ok env w key updates w' :
  updateItem key updates env w = (Ok tt, w') ->
  let updatedData := withUpdatedAt updates (env_now env (tick w)) in
  items w' =
    map (fun i => if (id i =? key)%string then spread i updatedData else i) (items w) /\
  transactions w' = transactions w /\
  db_calls w' =
    db_calls w ++ [ {| table := inventoryItems; op := DbUpdate key updatedData |} ].
Proof.
  unfold updateItem. unfold_m. cbn. intros H.
  repeat ask_env H; try discriminate.
  inversion H; subst; clear H. cbn. repeat split.
Qed.

(** A load that goes through replaces both collections by what the store
    listed, in the store's order. *)
Lemma loadInventoryData_ok env w captured user listedItems listedTransactions :
  env_me env (tick w) = Some user ->
  env_items env (1 + tick w) = Some listedItems ->
  env_transactions env (2 + tick w) = Some listedTransactions ->
  loadInventoryData captured env w =
    (Ok tt,
     {| items := orEmpty listedItems;
        transactions := orEmpty listedTransactions;
        loading := false;
        db_calls :=
          db_calls w ++
          [ {| table := inventoryItems; op := DbList (user_id user) None |};
            {| table := inventoryTransactions;
               op := DbList (user_id user) (Some 100) |} ];
        toasts := toasts w;
        tick := 3 + tick w |}).
Proof.
  intros Hme Hitems Htxs. cbn in Hitems, Htxs.
  unfold loadInventoryData. unfold_m. cbn.
  rewrite Hme. cbn. rewrite Hitems. cbn. rewrite Htxs. cbn.
  now rewrite <- app_assoc.
Qed.

(** *** Rules for relations every step of an operation keeps *)

Section Frame.

Variable R : World -> World -> Prop.
Context {R_pre : PreOrder R}.

Lemma keeps_ret {A : Type} (a : A) : keeps R (ret a).
Proof. intros env w. apply R_pre. Qed.

Lemma keeps_throw {A : Type} (e : Error) : keeps R (@throw A e).
Proof. intros env w. apply R_pre. Qed.

Lemma keeps_bind {A B : Type} (m : M A) (k : A -> M B) :
  keeps R m -> (forall a, keeps R (k a)) -> keeps R (bind m k).
Proof.
  intros Hm Hk env w. unfold bind. specialize (Hm env w).
  destruct (m env w) as [[a | e] w1]; cbn in *; [|assumption].
  etransitivity; [exact Hm | apply Hk].
Qed.

Lemma keeps_try_catch {A : Type} (body : M A) (handler : Error -> M A) :
  keeps R body -> (forall e, keeps R (handler e)) -> keeps R (try_catch body handler).
Proof.
  intros Hm Hk env w. unfold try_catch. specialize (Hm env w).
  destruct (body env w) as [[a | e] w1]; cbn in *; [assumption|].
  etransitivity; [exact Hm | apply Hk].
Qed.

Lemma keeps_try_finally {A : Type} (body : M A) (cleanup : M unit) :
  keeps R body -> keeps R cleanup -> keeps R (try_finally body cleanup).
Proof.
  intros Hm Hk env w. unfold try_finally. specialize (Hm env w).
  destruct (body env w) as [r w1]; cbn in *. specialize (Hk env w1).
  destruct (cleanup env w1) as [[u | e] w2]; cbn in *; etransitivity; eassumption.
Qed.

Lemma keeps_forEach {A : Type} (f : A -> M unit) (l : list A) :
  (forall x, keeps R (f x)) -> keeps R (forEach f l).
Proof.
  intros Hf. induction l as [|x rest IH]; cbn.
  - apply keeps_ret.
  - apply keeps_bind; [apply Hf | intros _; exact IH].
Qed.

Lemma keeps_mapM {A B : Type} (f : A -> M B) (l : list A) :
  (forall x, keeps R (f x)) -> keeps R (mapM f l).
Proof.
  intros Hf. induction l as [|x rest IH]; cbn.
  - apply keeps_ret.
  - apply keeps_bind; [apply Hf | intros y].
    apply keeps_bind; [exact IH | intros ys; apply keeps_ret].
Qed.

(** A sequence of operations keeps what each of them keeps. *)
Lemma keeps_run (P : Operation -> Prop) (env : Env) (ops : list Operation) :
  (forall o, P o -> keeps R (perform o)) ->
  Forall P ops -> forall w, R w (run env ops w).
Proof.
  intros HP Hops. induction Hops as [|o rest Ho _ IH]; intros w; cbn.
  - apply R_pre.
  - etransitivity; [apply (HP o Ho env w) | apply IH].
Qed.

End Frame.

(** Follow the structure of an operation down to its primitive steps. *)
Ltac frame_step :=
  match goal with
  | |- keeps ?R (ret _) => apply (@keeps_ret R _)
  | |- keeps ?R (throw _) => apply (@keeps_throw R _)
  | |- keeps ?R (bind _ _) => apply (@keeps_bind R _); [ | intros ? ]
  | |- keeps ?R (try_catch _ _) => apply (@keeps_try_catch R _); [ | intros ? ]
  | |- keeps ?R (try_finally _ _) => apply (@keeps_try_finally R _)
  | |- keeps ?R (forEach _ _) => apply (@keeps_forEach R _); intros ?
  | |- keeps ?R (mapM _ _) => apply (@keeps_mapM R _); intros ?
  | |- keeps ?R (match ?x with _ => _ end) => destruct x
  end.

Ltac unfold_ops :=
  unfold perform, refreshData, onAuthStateChanged, loadInventoryData,
    initializeSampleData, addItem, updateItem, deleteItem, updateQuantity.

(** Run a primitive step on any answer of the outside world. *)
Ltac run_prim :=
  intros ? ?; unfold_m; cbn;
  repeat match goal with
    | |- context [match ?x with _ => _ end] => destruct x
    end; cbn.
(** *** The three relations *)

#[export] Instance storeLogGrows_pre : PreOrder storeLogGrows.
Proof.
  split.
  - intros w. exists []. now rewrite app_nil_r.
  - intros a b c [l1 [E1 F1]] [l2 [E2 F2]]. exists (l1 ++ l2). split.
    + now rewrite E2, E1, app_assoc.
    + now apply Forall_app.
Qed.

#[export] Instance transactionsGrow_pre : PreOrder transactionsGrow.
Proof.
  split.
  - intros w. exists []. now rewrite app_nil_r.
  - intros a b c [l1 E1] [l2 E2]. exists (l1 ++ l2).
    now rewrite E2, E1, app_assoc.
Qed.

#[export] Instance stockStaysNonNegative_pre : PreOrder stockStaysNonNegative.
Proof.
  split.
  - intros w H. exact H.
  - intros a b c Hab Hbc H. apply Hbc, Hab, H.
Qed.

Lemma callsSince_app (w w' : World) (calls : list DbCall) :
  db_calls w' = db_calls w ++ calls -> callsSince w w' = calls.
Proof.
  intros E. unfold callsSince. rewrite E, skipn_app, skipn_all, Nat.sub_diag.
  reflexivity.
Qed.






Lemma nonNegative_setItems (f : list InventoryItem -> list InventoryItem) :
  (forall l, Forall (fun i : InventoryItem => itemNonNegative i) l ->
             Forall (fun i : InventoryItem => itemNonNegative i) (f l)) ->
  keeps stockStaysNonNegative (setItems f).
Proof. intros Hf env w. cbn. exact (Hf (items w)). Qed.

Lemma nonNegative_spread (item : InventoryItem) (patch : ItemPatch) :
  itemNonNegative item ->
  (forall q, p_quantity patch = Some q -> nonNegative q) ->
  (forall m, p_minimumStockLevel patch = Some m -> nonNegative m) ->
  itemNonNegative (spread item patch).
Proof.
  intros [Hq Hm] Pq Pm. unfold itemNonNegative, spread; cbn.
  destruct (p_quantity patch), (p_minimumStockLevel patch); cbn; auto.
Qed.

Lemma nonNegative_map_spread (key : string) (patch : ItemPatch) (l : list InventoryItem) :
  (forall q, p_quantity patch = Some q -> nonNegative q) ->
  (forall m, p_minimumStockLevel patch = Some m -> nonNegative m) ->
  Forall (fun i : InventoryItem => itemNonNegative i) l ->
  Forall (fun i : InventoryItem => itemNonNegative i)
    (map (fun i => if (id i =? key)%string then spread i patch else i) l).
Proof.
  intros Pq Pm H. apply Forall_map. eapply Forall_impl; [|exact H].
  intros i Hi. cbn beta. destruct (id i =? key)%string; [|exact Hi].
  now apply nonNegative_spread.
Qed.

Ltac stock_prim :=
  first
    [ apply nonNegative_setItems; intros l Hl
    | run_prim; intros Hl; exact Hl ].

(** With non-negative arguments the four mutations keep stock levels
    non-negative. *)
Lemma perform_stock (o : Operation) :
  isMutation o = true -> argumentsNonNegative o ->
  keeps stockStaysNonNegative (perform o).
Proof.
  destruct o; cbn [isMutation argumentsNonNegative]; intros H Harg;
    try discriminate; unfold_ops; repeat frame_step; stock_prim.
  - apply Forall_app; split; [exact Hl|]. repeat constructor; apply Harg.
  - destruct Harg as [Pq Pm]. now apply nonNegative_map_spread.
  - rewrite Forall_forall in *. intros x Hx. apply filter_In in Hx. now apply Hl.
  - apply nonNegative_map_spread; cbn; try exact Hl.
    + intros q [= <-]. exact Harg.
    + discriminate.
Qed.

(** ** Lookups and lists *)

Lemma findItem_absent (key : string) (l : list InventoryItem) :
  ~ In key (map id l) -> findItem key l = None.
Proof.
  unfold findItem. induction l as [|i rest IH]; cbn; [reflexivity|].
  intros H. destruct (String.eqb_spec (id i) key) as [E | _].
  - exfalso. apply H. now left.
  - apply IH. intros Hin. apply H. now right.
Qed.

Lemma findItem_app_last (key : string) (l : list InventoryItem) (x : InventoryItem) :
  ~ In key (map id l) -> id x = key -> findItem key (l ++ [x]) = Some x.
Proof.
  intros Habsent Hx. unfold findItem. induction l as [|i rest IH]; cbn.
  - rewrite Hx, String.eqb_refl. reflexivity.
  - destruct (String.eqb_spec (id i) key) as [E | _].
    + exfalso. apply Habsent. now left.
    + apply IH. intros Hin. apply Habsent. now right.
Qed.

(** Looking an item up after a [map] that rewrites the items with that id
    and keeps their id. *)
Lemma find_map_update (key : string) (g : InventoryItem -> InventoryItem)
  (l : list InventoryItem) :
  (forall i, id (g i) = id i) ->
  findItem key (map (fun i => if (id i =? key)%string then g i else i) l) =
  option_map g (findItem key l).
Proof.
  intros Hg. unfold findItem. induction l as [|i rest IH]; cbn; [reflexivity|].
  destruct (id i =? key)%string eqn:E.
  - rewrite Hg, E. reflexivity.
  - rewrite E. exact IH.
Qed.

Lemma filter_Permutation {A : Type} (f : A -> bool) (l l' : list A) :
  Permutation l l' -> Permutation (filter f l) (filter f l').
Proof.
  induction 1 as [| x l l' _ IH | x y l | l l' l'' _ IH1 _ IH2]; cbn.
  - constructor.
  - destruct (f x); [now constructor | exact IH].
  - destruct (f x), (f y); try reflexivity. apply perm_swap.
  - now transitivity (filter f l').
Qed.

Lemma date_leb_le (a b : option Z) :
  date_leb a b = true <-> exists x y, a = Some x /\ b = Some y /\ (x <= y)%Z.
Proof.
  unfold date_leb. destruct a as [x|], b as [y|]; split;
    try discriminate; try (intros (x' & y' & Ha & Hb & _); discriminate).
  - intros H. exists x, y. repeat split. now apply Z.leb_le.
  - intros (x' & y' & [= <-] & [= <-] & H). now apply Z.leb_le.
Qed.

Lemma spread_quantityPatch (item : InventoryItem) (q : number) (t : string) :
  spread item (quantityPatch q t) = requantified item q t.
Proof. reflexivity. Qed.

Lemma spread_mergedInto (item : InventoryItem) (updates : ItemPatch) (t : string) :
  mergedInto item updates t (spread item (withUpdatedAt updates t)).
Proof. unfold mergedInto. cbn. repeat split. Qed.

(** The kind of a transaction follows the sign of the change. *)
Lemma transactionTypeOf_sign (d : number) :
  ((0 <? d)%float = true -> transactionTypeOf d = Add) /\
  ((d <? 0)%float = true -> transactionTypeOf d = Remove) /\
  ((d =? 0)%float = true -> transactionTypeOf d = Adjust).
Proof.
  unfold transactionTypeOf. repeat split; intros H.
  - now rewrite H.
  - now rewrite (NumberFacts.ltb_zero_asym d H), H.
  - destruct (NumberFacts.eqb_zero_not_ltb d H) as [-> ->]. reflexivity.
Qed.

(** The example of the specification: 50 ml with a minimum of 10, set to 5. *)
Example setQuantity_example :
  map (fun t => (transactionType t, quantityChange t, previousQuantity t, newQuantity t))
    (transactions (step labEnv stockWorld (UpdateQuantity "a" 5 (Some "used")))) =
    [(Remove, (-45)%float, 50%float, 5%float)] /\
  map id (getLowStockItems stockWorld) = [] /\
  map id (getLowStockItems (step labEnv stockWorld (UpdateQuantity "a" 5 (Some "used"))))
    = ["a"].
Proof. vm_compute. repeat split. Qed.

(** * Properties of the ledger *)



(** C2, as stated, fails: setting 0.7 ml to 0.1 ml records the change
    0.1 - 0.7 = -0.6, and 0.7 + -0.6 is 0.09999999999999998, not 0.1; nor do
    the three stored values add up exactly. *)
Lemma updateQuantity_transaction_unbalanced :
  fst (perform (UpdateQuantity "a" 0.1 (Some "used")) labEnv bufferWorld) = Ok tt /\
  let created :=
    transactions (step labEnv bufferWorld (UpdateQuantity "a" 0.1 (Some "used"))) in
  map previousQuantity created = [0.7%float] /\
  map quantityChange created = [(-0.6)%float] /\
  map newQuantity created = [0.1%float] /\
  map (fun t => (previousQuantity t + quantityChange t)%float) created =
    [0.09999999999999998%float] /\
  map balanced created = [false] /\
  map balancedExactly created = [false].
Proof. vm_compute. repeat split. Qed.

(** C2, amended.  The transaction a resolved addItem, deleteItem or
    updateQuantity appends has [quantityChange === newQuantity -
    previousQuantity] in the numbers' own arithmetic (unless the change is
    NaN); for updateQuantity the change is that difference of the new and the
    found quantity.  The equation [previousQuantity + quantityChange ===
    newQuantity] holds for addItem when the quantity is not NaN and for
    deleteItem when the quantity is finite. *)
Theorem transaction_quantities (env : Env) (w w' : World) (o : Operation) :
  changesQuantity o = true ->
  perform o env w = (Ok tt, w') ->
  exists t,
    transactions w' = transactions w ++ [t] /\
    (is_nan (quantityChange t) = false ->
     (quantityChange t =? newQuantity t - previousQuantity t)%float = true) /\
    match o with
    | AddItem itemData => is_nan (quantity itemData) = false -> balanced t = true
    | DeleteItem key =>
        forall item, getItemById key w = Some item ->
                     is_finite (quantity item) = true -> balanced t = true
    | UpdateQuantity key newQ _ =>
        forall item, getItemById key w = Some item ->
                     quantityChange t = (newQ - quantity item)%float
    | _ => True
    end.
Proof.
  intros Hq E. destruct o; cbn in Hq, E; try discriminate.
  - apply addItem_ok in E. destruct E as (user & _ & _ & Ht & _).
    eexists; split; [exact Ht|]. cbn. split.
    + intros Hn. rewrite NumberFacts.sub_zero_r. now apply NumberFacts.eqb_refl.
    + intros Hn. unfold balanced; cbn. now apply NumberFacts.add_zero_l.
  - apply deleteItem_ok in E. destruct E as (item & user & Hf & _ & _ & Ht & _).
    eexists; split; [exact Ht|]. cbn. split.
    + apply NumberFacts.opp_eqb_zero_sub.
    + intros item' Hf'. unfold getItemById in Hf'. unfold findItem in Hf.
      rewrite Hf in Hf'. injection Hf' as <-. intros Hfin.
      unfold balanced; cbn. now apply NumberFacts.add_opp_diag.
  - apply updateQuantity_ok in E. destruct E as (item & user & Hf & _ & _ & Ht & _).
    eexists; split; [exact Ht|]. cbn. split.
    + apply NumberFacts.eqb_refl.
    + intros item' Hf'. unfold getItemById in Hf'. unfold findItem in Hf.
      rewrite Hf in Hf'. now injection Hf' as <-.
Qed.

Lemma transaction_quantities_witness :
  exists t,
    transactions (step labEnv stockWorld (DeleteItem "a")) = [] ++ [t] /\
    (is_nan (quantityChange t) = false ->
     (quantityChange t =? newQuantity t - previousQuantity t)%float = true) /\
    (forall item, getItemById "a" stockWorld = Some item ->
                  is_finite (quantity item) = true -> balanced t = true).
Proof.
  exact (transaction_quantities labEnv stockWorld _ (DeleteItem "a") eq_refl eq_refl).
Defined.

(** C3.  When the item with the given id is found and updateQuantity
    resolves, it appends one transaction for that id whose quantityChange is
    newQuantity - previousQuantity, whose kind is add for a positive change,
    remove for a negative one and adjust for zero, which records the previous
    and the new quantity and the given reason, "Manual adjustment" when none
    is given; the item then has the new quantity and the clock reading of the
    call as its update timestamp, everything else being as it was. *)
Theorem updateQuantity_records_change (env : Env) (w w' : World) (key : string)
  (newQ : number) (given : option string) (item : InventoryItem) :
  getItemById key w = Some item ->
  updateQuantity key newQ given env w = (Ok tt, w') ->
  exists t,
    transactions w' = transactions w ++ [t] /\
    itemId t = key /\
    quantityChange t = (newQ - quantity item)%float /\
    ((0 <? quantityChange t)%float = true -> transactionType t = Add) /\
    ((quantityChange t <? 0)%float = true -> transactionType t = Remove) /\
    ((quantityChange t =? 0)%float = true -> transactionType t = Adjust) /\
    previousQuantity t = quantity item /\
    newQuantity t = newQ /\
    reason t = Some (match given with Some r => r | None => "Manual adjustment" end) /\
    getItemById key w' = Some (requantified item newQ (env_now env (tick w))) /\
    items w' =
      map (fun i =>
             if (id i =? key)%string
             then requantified i newQ (env_now env (tick w)) else i)
        (items w).
Proof.
  intros Hfound E. apply updateQuantity_ok in E.
  destruct E as (item' & user & Hf & _ & Hitems & Ht & _).
  unfold getItemById in Hfound. unfold findItem in Hf. rewrite Hf in Hfound.
  injection Hfound as ->.
  eexists; split; [exact Ht|]. cbn.
  destruct (transactionTypeOf_sign (newQ - quantity item)%float) as (Ha & Hr & Hj).
  repeat (split; [solve [reflexivity | assumption]|]).
  split.
  - unfold getItemById. rewrite Hitems.
    change (find (fun i : InventoryItem => (id i =? key)%string)) with (findItem key).
    rewrite find_map_update by reflexivity. unfold findItem. now rewrite Hf.
  - exact Hitems.
Qed.

Lemma updateQuantity_records_change_witness :
  exists t,
    transactions (step labEnv stockWorld (UpdateQuantity "a" 5 None)) = [] ++ [t] /\
    itemId t = "a" /\
    quantityChange t = (5 - 50)%float /\
    ((0 <? quantityChange t)%float = true -> transactionType t = Add) /\
    ((quantityChange t <? 0)%float = true -> transactionType t = Remove) /\
    ((quantityChange t =? 0)%float = true -> transactionType t = Adjust) /\
    previousQuantity t = 50%float /\
    newQuantity t = 5%float /\
    reason t = Some "Manual adjustment" /\
    getItemById "a" (step labEnv stockWorld (UpdateQuantity "a" 5 None)) =
      Some (requantified
              (storedItem "a" "2024-03-01T09:00:00.000Z"
                 (reagentFields "PBS Buffer" 50 10 None))
              5 "2024-03-10T12:00:00.000Z") /\
    items (step labEnv stockWorld (UpdateQuantity "a" 5 None)) =
      [requantified
         (storedItem "a" "2024-03-01T09:00:00.000Z"
            (reagentFields "PBS Buffer" 50 10 None))
         5 "2024-03-10T12:00:00.000Z"].
Proof.
  exact (updateQuantity_records_change labEnv stockWorld _ "a" 5 None _
           eq_refl eq_refl).
Defined.

(** C4, as stated, fails: updateQuantity takes any number, and setting the
    buffer to -5 resolves and leaves an item with a negative quantity. *)
Lemma negative_quantity_accepted :
  fst (perform (UpdateQuantity "a" (-5) None) labEnv stockWorld) = Ok tt /\
  map (fun i : InventoryItem => (quantity i, (0 <=? quantity i)%float))
    (items (step labEnv stockWorld (UpdateQuantity "a" (-5) None))) =
    [((-5)%float, false)].
Proof. vm_compute. split; reflexivity. Qed.

(** C4, amended.  The ledger checks no number itself.  If every item has a
    non-negative quantity and minimum stock level, then after any sequence of
    addItem, updateItem, deleteItem and updateQuantity whose numeric arguments
    are non-negative (as the add-item form's schema requires of the fields it
    submits), whichever of them resolve or throw, every item still has. *)
Theorem stock_levels_stay_nonNegative (env : Env) (ops : list Operation) (w : World) :
  Forall (fun o => isMutation o = true /\ argumentsNonNegative o) ops ->
  Forall (fun i : InventoryItem => itemNonNegative i) (items w) ->
  Forall (fun i : InventoryItem => itemNonNegative i) (items (run env ops w)).
Proof.
  intros Hops.
  apply (keeps_run stockStaysNonNegative
           (fun o => isMutation o = true /\ argumentsNonNegative o) env ops);
    [|exact Hops].
  intros o [Hm Ha]. now apply perform_stock.
Qed.

Lemma stock_levels_stay_nonNegative_witness :
  Forall (fun i : InventoryItem => itemNonNegative i)
    (items
       (run labEnv
          [AddItem (reagentFields "Trypsin" 40 10 None);
           UpdateQuantity "a" 5 (Some "used");
           UpdateItem "a" (relocate "Freezer 2");
           DeleteItem "a"]
          stockWorld)).
Proof.
  apply stock_levels_stay_nonNegative.
  - repeat constructor; discriminate.
  - repeat constructor.
Defined.

(** C5.  For an id that no item in memory carries, deleteItem and
    updateQuantity throw the not-found error, leave the items and the
    transactions as they were, and issue no store call (nor any other call to
    the outside). *)
Theorem not_found_changes_nothing (env : Env) (w : World) (key : string)
  (newQ : number) (given : option string) :
  ~ In key (map id (items w)) ->
  refusedNotFound w (deleteItem key env w) /\
  refusedNotFound w (updateQuantity key newQ given env w).
Proof.
  intros Habsent. apply findItem_absent in Habsent.
  unfold refusedNotFound, deleteItem, updateQuantity. unfold_m. cbn.
  rewrite Habsent. cbn. repeat split.
Qed.

Lemma not_found_changes_nothing_witness :
  refusedNotFound stockWorld (deleteItem "b" labEnv stockWorld) /\
  refusedNotFound stockWorld (updateQuantity "b" 5 None labEnv stockWorld).
Proof.
  apply (not_found_changes_nothing labEnv stockWorld "b" 5 None).
  cbn. intros [H | []]. discriminate H.
Defined.

(** C6.  getLowStockItems returns exactly the items in memory whose quantity
    is less than or equal to their minimum stock level, and two states holding
    the same items in different orders give the same items back. *)
Theorem lowStock_exact (w : World) :
  (forall item,
      In item (getLowStockItems w) <->
      In item (items w) /\ (quantity item <=? minimumStockLevel item)%float = true) /\
  (forall w2,
      Permutation (items w) (items w2) ->
      Permutation (getLowStockItems w) (getLowStockItems w2)).
Proof.
  split.
  - intros item. unfold getLowStockItems. apply filter_In.
  - intros w2 H. unfold getLowStockItems. now apply filter_Permutation.
Qed.

Lemma lowStock_exact_witness :
  Permutation (getLowStockItems (worldOf [lowBuffer; fullTrypsin]))
    (getLowStockItems (worldOf [fullTrypsin; lowBuffer])).
Proof.
  apply (proj2 (lowStock_exact (worldOf [lowBuffer; fullTrypsin]))
           (worldOf [fullTrypsin; lowBuffer])).
  cbn. apply perm_swap.
Defined.




(** C8 does not hold of the code.  The store lists items and transactions
    most recent first, and after loading both collections are in that order;
    addItem then appends the new item, and its transaction, at the end, after
    the older ones. *)
Theorem mutations_break_newest_first :
  itemsNewestFirst (run stockedEnv [AuthStateChanged signedIn] initialWorld) = true /\
  transactionsNewestFirst (run stockedEnv [AuthStateChanged signedIn] initialWorld)
    = true /\
  fst (perform (AddItem (reagentFields "ELISA Kit" 3 1 None)) stockedEnv
         (run stockedEnv [AuthStateChanged signedIn] initialWorld)) = Ok tt /\
  map createdAt
    (items
       (run stockedEnv
          [AuthStateChanged signedIn; AddItem (reagentFields "ELISA Kit" 3 1 None)]
          initialWorld)) =
    ["2024-03-05T09:00:00.000Z"; "2024-03-01T09:00:00.000Z";
     "2024-03-10T12:00:00.005Z"] /\
  itemsNewestFirst
    (run stockedEnv
       [AuthStateChanged signedIn; AddItem (reagentFields "ELISA Kit" 3 1 None)]
       initialWorld) = false /\
  map tx_createdAt
    (transactions
       (run stockedEnv
          [AuthStateChanged signedIn; AddItem (reagentFields "ELISA Kit" 3 1 None)]
          initialWorld)) =
    ["2024-03-05T09:00:00.000Z"; "2024-03-01T09:00:00.000Z";
     "2024-03-10T12:00:00.009Z"] /\
  transactionsNewestFirst
    (run stockedEnv
       [AuthStateChanged signedIn; AddItem (reagentFields "ELISA Kit" 3 1 None)]
       initialWorld) = false.
Proof. vm_compute. repeat split. Qed.

(** C9, as stated, fails: createdAt and updatedAt are two readings of the
    clock, and when the clock advances between them the item looked up right
    after addItem carries two different timestamps. *)
Lemma clock_tick_separates_timestamps :
  fst (perform (AddItem (reagentFields "ELISA Kit" 3 1 None)) labEnv (worldOf []))
    = Ok tt /\
  option_map (fun i => (createdAt i, updatedAt i, (createdAt i =? updatedAt i)%string))
    (getItemById (env_id labEnv 1)
       (step labEnv (worldOf []) (AddItem (reagentFields "ELISA Kit" 3 1 None)))) =
    Some ("2024-03-10T12:00:00.002Z", "2024-03-10T12:00:00.003Z", false).
Proof. vm_compute. split; reflexivity. Qed.

(** C9, amended.  After a resolved addItem whose generated id is fresh (no
    item in memory carries it), the new item is the last one in memory and
    getItemById with its id returns it: its supplied fields are exactly
    itemData, its id is the generated one, and its createdAt and updatedAt are
    the two consecutive readings of the clock taken while it is built, equal
    whenever the clock has not advanced between them. *)
Theorem addItem_then_getItemById (env : Env) (w w' : World) (itemData : ItemFields) :
  addItem itemData env w = (Ok tt, w') ->
  ~ In (env_id env (1 + tick w)) (map id (items w)) ->
  exists item,
    items w' = items w ++ [item] /\
    getItemById (id item) w' = Some item /\
    fields item = itemData /\
    id item = env_id env (1 + tick w) /\
    createdAt item = env_now env (2 + tick w) /\
    updatedAt item = env_now env (3 + tick w) /\
    (env_now env (2 + tick w) = env_now env (3 + tick w) ->
     createdAt item = updatedAt item).
Proof.
  intros E Hfresh. apply addItem_ok in E. destruct E as (user & _ & Hitems & _).
  eexists; split; [exact Hitems|]. cbn. repeat split; try reflexivity.
  - unfold getItemById. rewrite Hitems.
    now apply (findItem_app_last _ (items w)).
  - intros H. exact H.
Qed.

Lemma addItem_then_getItemById_witness :
  exists item,
    items (snd (addItem (reagentFields "ELISA Kit" 3 1 None) quickEnv stockWorld)) =
      items stockWorld ++ [item] /\
    getItemById (id item)
      (snd (addItem (reagentFields "ELISA Kit" 3 1 None) quickEnv stockWorld)) =
      Some item /\
    fields item = reagentFields "ELISA Kit" 3 1 None /\
    id item = env_id quickEnv 1 /\
    createdAt item = "2024-03-10T12:00:00.000Z" /\
    updatedAt item = "2024-03-10T12:00:00.000Z" /\
    (env_now quickEnv 2 = env_now quickEnv 3 -> createdAt item = updatedAt item).
Proof.
  apply (addItem_then_getItemById quickEnv stockWorld _
           (reagentFields "ELISA Kit" 3 1 None) eq_refl).
  vm_compute. intros [H | []]. discriminate H.
Defined.

(** C10.  A resolved updateItem leaves the transactions as they were; the
    items keep their number and their places; an item whose id differs from
    the given one is unchanged, and an item with the given id has the updates
    merged in, property by property, with the clock reading of the call as
    its update timestamp. *)
Theorem updateItem_frame (env : Env) (w w' : World) (key : string)
  (updates : ItemPatch) :
  updateItem key updates env w = (Ok tt, w') ->
  transactions w' = transactions w /\
  List.length (items w') = List.length (items w) /\
  forall n item,
    nth_error (items w) n = Some item ->
    (id item <> key -> nth_error (items w') n = Some item) /\
    (id item = key ->
     exists item',
       nth_error (items w') n = Some item' /\
       mergedInto item updates (env_now env (tick w)) item').
Proof.
  intros E. apply updateItem_ok in E. destruct E as (Hitems & Ht & _).
  split; [exact Ht|]. rewrite Hitems. split; [apply length_map|].
  intros n item Hn. rewrite nth_error_map, Hn. cbn. split; intros Hid.
  - apply String.eqb_neq in Hid. now rewrite Hid.
  - apply String.eqb_eq in Hid. rewrite Hid. eexists; split; [reflexivity|].
    apply spread_mergedInto.
Qed.

Lemma updateItem_frame_witness :
  transactions (snd (updateItem "a" (relocate "Freezer 2") labEnv
                       (worldOf [lowBuffer; fullTrypsin]))) = [] /\
  List.length (items (snd (updateItem "a" (relocate "Freezer 2") labEnv
                             (worldOf [lowBuffer; fullTrypsin])))) = 2 /\
  forall n item,
    nth_error [lowBuffer; fullTrypsin] n = Some item ->
    (id item <> "a" ->
     nth_error (items (snd (updateItem "a" (relocate "Freezer 2") labEnv
                              (worldOf [lowBuffer; fullTrypsin])))) n = Some item) /\
    (id item = "a" ->
     exists item',
       nth_error (items (snd (updateItem "a" (relocate "Freezer 2") labEnv
                                (worldOf [lowBuffer; fullTrypsin])))) n = Some item' /\
       mergedInto item (relocate "Freezer 2") "2024-03-10T12:00:00.000Z" item').
Proof.
  exact (updateItem_frame labEnv (worldOf [lowBuffer; fullTrypsin]) _ "a"
           (relocate "Freezer 2") eq_refl).
Defined.

(** * Further properties of the ledger *)

Lemma getItemById_In (key : string) (w : World) (item : InventoryItem) :
  getItemById key w = Some item -> In item (items w) /\ id item = key.
Proof.
  unfold getItemById. intros H. apply find_some in H. destruct H as [Hin Hid].
  split; [exact Hin | now apply String.eqb_eq].
Qed.

Lemma findItem_filter_out (key : string) (l : list InventoryItem) :
  findItem key (filter (fun i => negb (id i =? key)%string) l) = None.
Proof.
  apply findItem_absent. intros Hin. apply in_map_iff in Hin.
  destruct Hin as (x & Hx & Hf). apply filter_In in Hf. destruct Hf as [_ Hne].
  apply negb_true_iff, String.eqb_neq in Hne. contradiction.
Qed.

(** X1.  A resolved deleteItem removes every item with the given id, so a
    lookup of that id finds nothing, and keeps the other items; the
    transaction it appends is a remove of the whole quantity the found item
    had, down to 0, with the reason "Item deleted". *)
Theorem deleteItem_removes_item (env : Env) (w w' : World) (key : string)
  (item : InventoryItem) :
  getItemById key w = Some item ->
  deleteItem key env w = (Ok tt, w') ->
  getItemById key w' = None /\
  (forall other, In other (items w') <-> In other (items w) /\ id other <> key) /\
  exists t,
    transactions w' = transactions w ++ [t] /\
    itemId t = key /\
    transactionType t = Remove /\
    previousQuantity t = quantity item /\
    quantityChange t = (- quantity item)%float /\
    newQuantity t = 0%float /\
    reason t = Some "Item deleted".
Proof.
  intros Hfound E. apply deleteItem_ok in E.
  destruct E as (item' & user & Hf & _ & Hitems & Ht & _).
  unfold getItemById in Hfound. unfold findItem in Hf. rewrite Hf in Hfound.
  injection Hfound as ->. split; [|split].
  - unfold getItemById. rewrite Hitems. apply findItem_filter_out.
  - intros other. rewrite Hitems, filter_In, negb_true_iff, String.eqb_neq.
    reflexivity.
  - eexists; split; [exact Ht|]. cbn. repeat split.
Qed.

Lemma deleteItem_removes_item_witness :
  getItemById "a" (snd (deleteItem "a" labEnv (worldOf [lowBuffer; fullTrypsin]))) = None /\
  (forall other,
      In other (items (snd (deleteItem "a" labEnv (worldOf [lowBuffer; fullTrypsin]))))
      <-> In other [lowBuffer; fullTrypsin] /\ id other <> "a") /\
  exists t,
    transactions (snd (deleteItem "a" labEnv (worldOf [lowBuffer; fullTrypsin]))) =
      [] ++ [t] /\
    itemId t = "a" /\
    transactionType t = Remove /\
    previousQuantity t = 5%float /\
    quantityChange t = (- 5)%float /\
    newQuantity t = 0%float /\
    reason t = Some "Item deleted".
Proof.
  exact (deleteItem_removes_item labEnv (worldOf [lowBuffer; fullTrypsin]) _ "a"
           lowBuffer eq_refl eq_refl).
Defined.

(** X2.  A resolved addItem appends the new item and one transaction that
    refers to it: an add from 0 to the supplied quantity, with the reason
    "Initial stock", owned by the user who owns the item and performed by the
    user's email, or by the user's id when the email is absent or empty. *)
Theorem addItem_initial_transaction (env : Env) (w w' : World) (itemData : ItemFields) :
  addItem itemData env w = (Ok tt, w') ->
  exists user item t,
    env_me env (tick w) = Some user /\
    items w' = items w ++ [item] /\
    transactions w' = transactions w ++ [t] /\
    itemId t = id item /\
    transactionType t = Add /\
    previousQuantity t = 0%float /\
    quantityChange t = quantity itemData /\
    newQuantity t = quantity itemData /\
    reason t = Some "Initial stock" /\
    tx_userId t = userId item /\
    userId item = user_id user /\
    (forall e, email user = Some e -> e <> "" -> performedBy t = e) /\
    (email user = None \/ email user = Some "" -> performedBy t = user_id user).
Proof.
  intros E. apply addItem_ok in E. destruct E as (user & Hme & Hitems & Ht & _).
  exists user. eexists. eexists. split; [exact Hme|].
  split; [exact Hitems|]. split; [exact Ht|]. cbn. unfold performer.
  repeat split.
  - intros e He Hne. rewrite He. apply String.eqb_neq in Hne. now rewrite Hne.
  - intros [He | He]; rewrite He; reflexivity.
Qed.

Lemma addItem_initial_transaction_witness :
  exists user item t,
    env_me labEnv (tick stockWorld) = Some user /\
    items (snd (addItem (reagentFields "Trypsin" 40 10 None) labEnv stockWorld)) =
      items stockWorld ++ [item] /\
    transactions (snd (addItem (reagentFields "Trypsin" 40 10 None) labEnv stockWorld)) =
      transactions stockWorld ++ [t] /\
    itemId t = id item /\
    transactionType t = Add /\
    previousQuantity t = 0%float /\
    quantityChange t = 40%float /\
    newQuantity t = 40%float /\
    reason t = Some "Initial stock" /\
    tx_userId t = userId item /\
    userId item = user_id user /\
    (forall e, email user = Some e -> e <> "" -> performedBy t = e) /\
    (email user = None \/ email user = Some "" -> performedBy t = user_id user).
Proof.
  exact (addItem_initial_transaction labEnv stockWorld _
           (reagentFields "Trypsin" 40 10 None) eq_refl).
Defined.

(** X3.  A resolved addItem, deleteItem or updateQuantity makes exactly two
    store calls: one on the items table, then the creation, in the
    transactions table, of exactly the transaction it appends in memory. *)
Theorem memory_matches_store (env : Env) (w w' : World) (o : Operation) :
  changesQuantity o = true ->
  perform o env w = (Ok tt, w') ->
  exists t first,
    transactions w' = transactions w ++ [t] /\
    table first = inventoryItems /\
    callsSince w w' =
      [first; {| table := inventoryTransactions; op := DbCreate (TransactionRecord t) |}].
Proof.
  intros Hq E. destruct o; cbn in Hq, E; try discriminate.
  - apply addItem_ok in E. destruct E as (user & _ & _ & Ht & Hc).
    do 2 eexists. split; [exact Ht|]. rewrite (callsSince_app _ _ _ Hc).
    split; cycle 1; reflexivity.
  - apply deleteItem_ok in E. destruct E as (item & user & _ & _ & _ & Ht & Hc).
    do 2 eexists. split; [exact Ht|]. rewrite (callsSince_app _ _ _ Hc).
    split; cycle 1; reflexivity.
  - apply updateQuantity_ok in E. destruct E as (item & user & _ & _ & _ & Ht & Hc).
    do 2 eexists. split; [exact Ht|]. rewrite (callsSince_app _ _ _ Hc).
    split; cycle 1; reflexivity.
Qed.

Lemma memory_matches_store_witness :
  exists t first,
    transactions (step labEnv stockWorld (UpdateQuantity "a" 5 None)) =
      transactions stockWorld ++ [t] /\
    table first = inventoryItems /\
    callsSince stockWorld (step labEnv stockWorld (UpdateQuantity "a" 5 None)) =
      [first; {| table := inventoryTransactions; op := DbCreate (TransactionRecord t) |}].
Proof.
  exact (memory_matches_store labEnv stockWorld _ (UpdateQuantity "a" 5 None)
           eq_refl eq_refl).
Defined.

(** Evaluate the operation in [H] on every answer of the outside world. *)
Ltac run_in H :=
  unfold perform, refreshData, onAuthStateChanged, loadInventoryData,
    initializeSampleData, addItem, updateItem, deleteItem, updateQuantity in H;
  unfold_m; cbn in H;
  repeat first
    [ ask_env H
    | match type of H with
      | context [match findItem ?k ?l with _ => _ end] =>
          destruct (findItem k l) eqn:?; cbn in H
      end ].

(** X4.  Each of the four mutations shows exactly one notification: a
    success when it resolves, an error when it throws; and one that throws
    has appended no transaction. *)
Theorem mutation_notifies_once (env : Env) (w : World) (o : Operation) :
  isMutation o = true ->
  (fst (perform o env w) = Ok tt ->
   exists message, toasts (step env w o) = toasts w ++ [ToastSuccess message]) /\
  (forall e, fst (perform o env w) = Thrown e ->
   (exists message, toasts (step env w o) = toasts w ++ [ToastError message]) /\
   transactions (step env w o) = transactions w).
Proof.
  intros Hm. unfold step.
  destruct (perform o env w) as [r w'] eqn:E. cbn [fst snd].
  destruct o; cbn in Hm; try discriminate; clear Hm;
    run_in E; injection E as <- <-; cbn;
    (split; [intros H | intros e H]); try discriminate; eauto.
Qed.

Lemma mutation_notifies_once_witness :
  exists message,
    toasts (step labEnv stockWorld (DeleteItem "a")) =
      toasts stockWorld ++ [ToastSuccess message].
Proof.
  apply (proj1 (mutation_notifies_once labEnv stockWorld (DeleteItem "a") eq_refl)).
  reflexivity.
Defined.

(** X5.  When the store accepts the new item and then rejects its
    transaction, addItem throws with the item already in memory and in the
    store, and with no transaction for it: nothing is rolled back. *)
Theorem addItem_item_without_transaction (env : Env) (w : World)
  (itemData : ItemFields) (user : User) :
  env_me env (tick w) = Some user ->
  env_db_ok env (4 + tick w) = true ->
  env_db_ok env (7 + tick w) = false ->
  fst (addItem itemData env w) = Thrown PersistenceFailure /\
  (exists item,
      items (snd (addItem itemData env w)) = items w ++ [item] /\
      fields item = itemData /\
      In {| table := inventoryItems; op := DbCreate (ItemRecord item) |}
        (callsSince w (snd (addItem itemData env w)))) /\
  transactions (snd (addItem itemData env w)) = transactions w.
Proof.
  intros Hme Hitem Htx. cbn in Hitem, Htx.
  unfold addItem, callsSince. unfold_m. cbn.
  rewrite Hme. cbn. rewrite Hitem. cbn. rewrite Htx. cbn.
  split; [reflexivity|]. split; [|reflexivity].
  eexists. split; [reflexivity|]. split; [reflexivity|].
  rewrite <- app_assoc, skipn_app, skipn_all, Nat.sub_diag. cbn. now left.
Qed.


Lemma addItem_item_without_transaction_witness :
  fst (addItem (reagentFields "Trypsin" 40 10 None) (rejectingAt 7) stockWorld) =
    Thrown PersistenceFailure /\
  (exists item,
      items (snd (addItem (reagentFields "Trypsin" 40 10 None) (rejectingAt 7)
                    stockWorld)) = items stockWorld ++ [item] /\
      fields item = reagentFields "Trypsin" 40 10 None /\
      In {| table := inventoryItems; op := DbCreate (ItemRecord item) |}
        (callsSince stockWorld
           (snd (addItem (reagentFields "Trypsin" 40 10 None) (rejectingAt 7)
                   stockWorld)))) /\
  transactions (snd (addItem (reagentFields "Trypsin" 40 10 None) (rejectingAt 7)
                       stockWorld)) = transactions stockWorld.
Proof.
  exact (addItem_item_without_transaction (rejectingAt 7) stockWorld
           (reagentFields "Trypsin" 40 10 None) alice eq_refl eq_refl eq_refl).
Defined.

(** X6.  When the store accepts the new quantity and a later step fails (the
    user can no longer be read, or the store rejects the transaction),
    updateQuantity throws with the quantity already changed in memory and no
    transaction recording the change. *)
Theorem updateQuantity_change_without_transaction (env : Env) (w : World)
  (key : string) (newQ : number) (given : option string) (item : InventoryItem) :
  getItemById key w = Some item ->
  env_db_ok env (1 + tick w) = true ->
  env_me env (2 + tick w) = None \/ env_db_ok env (5 + tick w) = false ->
  (exists e, fst (updateQuantity key newQ given env w) = Thrown e) /\
  getItemById key (snd (updateQuantity key newQ given env w)) =
    Some (requantified item newQ (env_now env (tick w))) /\
  transactions (snd (updateQuantity key newQ given env w)) = transactions w.
Proof.
  intros Hfound Hwrite Hlater. cbn in Hwrite, Hlater.
  assert (Hlook : forall l' : list InventoryItem,
             l' = map (fun i => if (id i =? key)%string
                                then spread i (quantityPatch newQ (env_now env (tick w)))
                                else i) (items w) ->
             find (fun i : InventoryItem => (id i =? key)%string) l' =
               Some (requantified item newQ (env_now env (tick w)))).
  { intros l' ->.
    change (find (fun i : InventoryItem => (id i =? key)%string)) with (findItem key).
    rewrite find_map_update by reflexivity.
    unfold getItemById in Hfound. unfold findItem. now rewrite Hfound. }
  unfold getItemById in *. unfold updateQuantity. unfold_m. cbn.
  unfold findItem. rewrite Hfound. cbn. rewrite Hwrite. cbn.
  destruct (env_me env (S (S (tick w)))) as [user|] eqn:Hme; cbn.
  - destruct Hlater as [Hl | Hl]; [discriminate|]. rewrite Hl. cbn.
    split; [eauto|]. split; [|reflexivity]. now apply Hlook.
  - split; [eauto|]. split; [|reflexivity]. now apply Hlook.
Qed.

Lemma updateQuantity_change_without_transaction_witness :
  (exists e, fst (updateQuantity "a" 5 None (rejectingAt 5) stockWorld) = Thrown e) /\
  getItemById "a" (snd (updateQuantity "a" 5 None (rejectingAt 5) stockWorld)) =
    Some (requantified
            (storedItem "a" "2024-03-01T09:00:00.000Z"
               (reagentFields "PBS Buffer" 50 10 None))
            5 "2024-03-10T12:00:00.000Z") /\
  transactions (snd (updateQuantity "a" 5 None (rejectingAt 5) stockWorld)) =
    transactions stockWorld.
Proof.
  exact (updateQuantity_change_without_transaction (rejectingAt 5) stockWorld "a" 5
           None _ eq_refl eq_refl (or_intror eq_refl)).
Defined.

(** X7.  When the store rejects the first write of a mutation, the mutation
    throws and the items and transactions in memory are as they were. *)
Theorem rejected_first_write_changes_nothing (env : Env) (w : World) (o : Operation) :
  isMutation o = true ->
  env_db_ok env (firstWriteTick o w) = false ->
  (exists e, fst (perform o env w) = Thrown e) /\
  items (step env w o) = items w /\
  transactions (step env w o) = transactions w.
Proof.
  intros Hm Hrej. unfold step.
  destruct (perform o env w) as [r w'] eqn:E. cbn [fst snd].
  destruct o; cbn in Hm, Hrej; try discriminate; clear Hm;
    run_in E; injection E as <- <-; cbn; try congruence; eauto.
Qed.

Lemma rejected_first_write_changes_nothing_witness :
  (exists e, fst (perform (UpdateItem "a" (relocate "Freezer 2")) (rejectingAt 1)
                    stockWorld) = Thrown e) /\
  items (step (rejectingAt 1) stockWorld (UpdateItem "a" (relocate "Freezer 2"))) =
    items stockWorld /\
  transactions (step (rejectingAt 1) stockWorld (UpdateItem "a" (relocate "Freezer 2")))
    = transactions stockWorld.
Proof.
  exact (rejected_first_write_changes_nothing (rejectingAt 1) stockWorld
           (UpdateItem "a" (relocate "Freezer 2")) eq_refl eq_refl).
Defined.

(** X8.  updateItem does not look the id up in memory: for an id no item
    carries it still sends the update to the store, and when the store
    accepts it the call resolves with every item in memory unchanged. *)
Theorem updateItem_unknown_id (env : Env) (w w' : World) (key : string)
  (updates : ItemPatch) :
  ~ In key (map id (items w)) ->
  updateItem key updates env w = (Ok tt, w') ->
  items w' = items w /\
  callsSince w w' =
    [ {| table := inventoryItems;
         op := DbUpdate key (withUpdatedAt updates (env_now env (tick w))) |} ].
Proof.
  intros Habsent E. apply updateItem_ok in E. destruct E as (Hitems & _ & Hc).
  split.
  - rewrite Hitems. rewrite <- (map_id (items w)) at 2. apply map_ext_in.
    intros i Hi. destruct (String.eqb_spec (id i) key) as [Heq | _]; [|reflexivity].
    exfalso. apply Habsent. apply in_map_iff. now exists i.
  - exact (callsSince_app _ _ _ Hc).
Qed.

Lemma updateItem_unknown_id_witness :
  items (snd (updateItem "zz" (relocate "Freezer 2") labEnv stockWorld)) =
    items stockWorld /\
  callsSince stockWorld (snd (updateItem "zz" (relocate "Freezer 2") labEnv stockWorld))
    = [ {| table := inventoryItems;
           op := DbUpdate "zz"
                   (withUpdatedAt (relocate "Freezer 2") "2024-03-10T12:00:00.000Z") |} ].
Proof.
  apply (updateItem_unknown_id labEnv stockWorld _ "zz" (relocate "Freezer 2")).
  - cbn. intros [H | []]. discriminate H.
  - reflexivity.
Defined.

(** A [try] whose handler always resolves always resolves. *)
Lemma try_catch_resolves (body : M unit) (handler : Error -> M unit) (env : Env)
  (w : World) :
  (forall e env' w', fst (handler e env' w') = Ok tt) ->
  fst (try_catch body handler env w) = Ok tt.
Proof.
  intros Hh. unfold try_catch. destruct (body env w) as [[[] | e] w'];
    [reflexivity | apply Hh].
Qed.

Lemma initializeSampleData_resolves (env : Env) (w : World) :
  fst (initializeSampleData env w) = Ok tt.
Proof.
  unfold initializeSampleData. apply try_catch_resolves. reflexivity.
Qed.

Lemma try_finally_settles (body : M unit) (env : Env) (w : World) :
  fst (body env w) = Ok tt ->
  fst (try_finally body (setLoading false) env w) = Ok tt /\
  loading (snd (try_finally body (setLoading false) env w)) = false.
Proof.
  intros Hok. unfold try_finally, setLoading.
  destruct (body env w) as [r w1]. cbn in Hok. subst r. cbn. split; reflexivity.
Qed.

Lemma loadInventoryData_resolves (captured : list InventoryItem) (env : Env)
  (w : World) :
  fst (loadInventoryData captured env w) = Ok tt /\
  loading (snd (loadInventoryData captured env w)) = false.
Proof.
  unfold loadInventoryData. unfold bind at 1. unfold setLoading at 1.
  cbn beta iota. apply try_finally_settles. apply try_catch_resolves.
  intros e env' w'.
  destruct (List.length captured =? 0)%nat; [apply initializeSampleData_resolves|].
  reflexivity.
Qed.

(** X9.  Loading never throws and always ends with the loading flag down,
    whatever the authentication service and the store answer; refreshData
    likewise, and it announces "Data refreshed!" last even when nothing could
    be loaded. *)
Theorem loading_always_settles (env : Env) (w : World) :
  (forall captured,
      fst (loadInventoryData captured env w) = Ok tt /\
      loading (snd (loadInventoryData captured env w)) = false) /\
  fst (refreshData env w) = Ok tt /\
  loading (snd (refreshData env w)) = false /\
  exists shown,
    toasts (snd (refreshData env w)) = shown ++ [ToastSuccess "Data refreshed!"].
Proof.
  split; [intros captured; apply loadInventoryData_resolves|].
  unfold refreshData, bind, readItems, toast. cbn -[loadInventoryData].
  destruct (loadInventoryData_resolves (items w) env w) as [Hok Hload].
  destruct (loadInventoryData (items w) env w) as [r w1]. cbn in Hok, Hload.
  subst r. cbn. repeat split; [exact Hload | eauto].
Qed.



(** X10.  When a refresh cannot load (the user cannot be read, or the store
    rejects one of the two lists) while items are in memory, the items and
    transactions in memory stay as they are, the store has only been asked to
    list, and refreshData resolves all the same. *)
Theorem failed_refresh_keeps_state (env : Env) (w : World) :
  items w <> [] ->
  env_me env (tick w) = None \/
  env_items env (1 + tick w) = None \/
  env_transactions env (2 + tick w) = None ->
  fst (refreshData env w) = Ok tt /\
  items (snd (refreshData env w)) = items w /\
  transactions (snd (refreshData env w)) = transactions w /\
  forallb isList (callsSince w (snd (refreshData env w))) = true.
Proof.
  intros Hitems Hfail. cbn in Hfail.
  assert (Hlen : (List.length (items w) =? 0)%nat = false).
  { destruct (items w); [contradiction | reflexivity]. }
  unfold refreshData, loadInventoryData, callsSince. unfold_m. cbn. rewrite Hlen.
  destruct (env_me env (tick w)) as [user|]; cbn.
  - destruct (env_items env (S (tick w))) as [listed|]; cbn.
    + destruct (env_transactions env (S (S (tick w)))) as [listedT|]; cbn.
      * destruct Hfail as [H | [H | H]]; discriminate H.
      * repeat split.
        rewrite <- app_assoc, skipn_app, skipn_all, Nat.sub_diag. reflexivity.
    + repeat split. rewrite skipn_app, skipn_all, Nat.sub_diag. reflexivity.
  - repeat split. now rewrite skipn_all.
Qed.


Lemma failed_refresh_keeps_state_witness :
  fst (refreshData storeDown stockWorld) = Ok tt /\
  items (snd (refreshData storeDown stockWorld)) = items stockWorld /\
  transactions (snd (refreshData storeDown stockWorld)) = transactions stockWorld /\
  forallb isList (callsSince stockWorld (snd (refreshData storeDown stockWorld))) = true.
Proof.
  apply (failed_refresh_keeps_state storeDown stockWorld).
  - discriminate.
  - right. left. reflexivity.
Defined.







(** [q - q === 0] for a finite [q]. *)
Lemma number_sub_diag (q : number) :
  is_finite q = true -> (q - q =? 0)%float = true.
Proof.
  unfold is_finite, is_nan, is_infinity.
  rewrite negb_true_iff, orb_false_iff, negb_false_iff, !FloatAxioms.eqb_spec,
    sub_spec, abs_spec.
  change (Prim2SF 0) with (S754_zero false).
  change (Prim2SF infinity) with (S754_infinity false).
  destruct (Prim2SF q) as [s | s | | s m e];
    [ destruct s; cbn; intuition congruence
    | destruct s; cbn; intuition congruence
    | cbn; intuition congruence
    | ].
  intros _. unfold SF64sub, SFsub.
  rewrite Z.min_id, Z.sub_diag. reflexivity.
Qed.

(** X12.  Setting an item to the quantity it already has, when that quantity
    is finite, is recorded as an adjust with a change of zero, and leaves the
    quantity as it was. *)
Theorem updateQuantity_same_value_adjusts (env : Env) (w w' : World) (key : string)
  (given : option string) (item : InventoryItem) :
  getItemById key w = Some item ->
  is_finite (quantity item) = true ->
  updateQuantity key (quantity item) given env w = (Ok tt, w') ->
  exists t item',
    transactions w' = transactions w ++ [t] /\
    transactionType t = Adjust /\
    (quantityChange t =? 0)%float = true /\
    getItemById key w' = Some item' /\
    quantity item' = quantity item.
Proof.
  intros Hfound Hfin E. apply updateQuantity_ok in E.
  destruct E as (item0 & user & Hf & _ & Hitems & Ht & _).
  unfold getItemById in Hfound. unfold findItem in Hf. rewrite Hf in Hfound.
  injection Hfound as ->.
  pose proof (number_sub_diag (quantity item) Hfin) as Hzero.
  eexists. exists (requantified item (quantity item) (env_now env (tick w))).
  split; [exact Ht|]. cbn. repeat split.
  - now apply transactionTypeOf_sign.
  - exact Hzero.
  - unfold getItemById. rewrite Hitems.
    change (find (fun i : InventoryItem => (id i =? key)%string)) with (findItem key).
    rewrite find_map_update by reflexivity. unfold findItem. now rewrite Hf.
Qed.

Lemma updateQuantity_same_value_adjusts_witness :
  exists t item',
    transactions (snd (updateQuantity "a" 50 None labEnv stockWorld)) =
      transactions stockWorld ++ [t] /\
    transactionType t = Adjust /\
    (quantityChange t =? 0)%float = true /\
    getItemById "a" (snd (updateQuantity "a" 50 None labEnv stockWorld)) = Some item' /\
    quantity item' = 50%float.
Proof.
  exact (updateQuantity_same_value_adjusts labEnv stockWorld _ "a" None
           (storedItem "a" "2024-03-01T09:00:00.000Z"
              (reagentFields "PBS Buffer" 50 10 None))
           eq_refl eq_refl eq_refl).
Defined.

(** X13.  After a resolved updateQuantity the updated item is among the low
    stock items exactly when the new quantity is less than or equal to the
    item's minimum stock level. *)
Theorem updateQuantity_low_stock (env : Env) (w w' : World) (key : string)
  (newQ : number) (given : option string) (item : InventoryItem) :
  getItemById key w = Some item ->
  updateQuantity key newQ given env w = (Ok tt, w') ->
  (In (requantified item newQ (env_now env (tick w))) (getLowStockItems w') <->
   (newQ <=? minimumStockLevel item)%float = true).
Proof.
  intros Hfound E. apply updateQuantity_ok in E.
  destruct E as (item0 & user & Hf & _ & Hitems & _).
  unfold getItemById in Hfound. unfold findItem in Hf. rewrite Hf in Hfound.
  injection Hfound as ->.
  unfold getLowStockItems. rewrite filter_In. cbn. split; [tauto|].
  intros Hle. split; [|exact Hle]. rewrite Hitems.
  apply find_some in Hf. destruct Hf as [Hin Hid].
  apply in_map_iff. exists item. rewrite Hid. split; [reflexivity | exact Hin].
Qed.

Lemma updateQuantity_low_stock_witness :
  In (requantified
        (storedItem "a" "2024-03-01T09:00:00.000Z"
           (reagentFields "PBS Buffer" 50 10 None))
        5 (env_now labEnv (tick stockWorld)))
    (getLowStockItems (snd (updateQuantity "a" 5 (Some "used") labEnv stockWorld))) <->
  (5 <=? 10)%float = true.
Proof.
  exact (updateQuantity_low_stock labEnv stockWorld _ "a" 5 (Some "used") _
           eq_refl eq_refl).
Defined.

#[export] Instance lookupsKept_pre : PreOrder lookupsKept.
Proof.
  split.
  - intros w key item H. exact H.
  - intros a b c Hab Hbc key item H. apply Hbc, Hab, H.
Qed.

#[export] Instance otherLookupsKept_pre (key : string) : PreOrder (otherLookupsKept key).
Proof.
  split.
  - intros w other _. reflexivity.
  - intros a b c Hab Hbc other Hne. now rewrite (Hbc other Hne), (Hab other Hne).
Qed.

Lemma find_app_found (key : string) (l extra : list InventoryItem) (x : InventoryItem) :
  findItem key l = Some x -> findItem key (l ++ extra) = Some x.
Proof.
  unfold findItem. induction l as [|i rest IH]; cbn; [discriminate|].
  destruct (id i =? key)%string; [trivial | exact IH].
Qed.

Lemma find_filter_other (key other : string) (l : list InventoryItem) :
  other <> key ->
  findItem other (filter (fun i => negb (id i =? key)%string) l) = findItem other l.
Proof.
  intros Hne. unfold findItem. induction l as [|i rest IH]; cbn; [reflexivity|].
  destruct (String.eqb_spec (id i) key) as [Hk | Hk]; cbn.
  - destruct (String.eqb_spec (id i) other) as [Ho | _]; [congruence | exact IH].
  - destruct (id i =? other)%string; [reflexivity | exact IH].
Qed.

Lemma find_map_other (key other : string) (g : InventoryItem -> InventoryItem)
  (l : list InventoryItem) :
  other <> key ->
  (forall i, id (g i) = id i) ->
  findItem other (map (fun i => if (id i =? key)%string then g i else i) l) =
  findItem other l.
Proof.
  intros Hne Hg. unfold findItem. induction l as [|i rest IH]; cbn; [reflexivity|].
  destruct (String.eqb_spec (id i) key) as [Hk | Hk].
  - rewrite Hg. destruct (String.eqb_spec (id i) other) as [Ho | _];
      [congruence | exact IH].
  - destruct (id i =? other)%string; [reflexivity | exact IH].
Qed.

Lemma otherLookups_setItems (key : string)
  (f : list InventoryItem -> list InventoryItem) :
  (forall other l, other <> key -> findItem other (f l) = findItem other l) ->
  keeps (otherLookupsKept key) (setItems f).
Proof. intros Hf env w other Hne. cbn. exact (Hf other (items w) Hne). Qed.

Ltac other_prim :=
  first
    [ apply otherLookups_setItems; intros other l Hne
    | run_prim; intros other Hne; reflexivity ].

Lemma deleteItem_keeps_others (key : string) :
  keeps (otherLookupsKept key) (deleteItem key).
Proof.
  unfold deleteItem; repeat frame_step; other_prim. now apply find_filter_other.
Qed.

Lemma updateQuantity_keeps_others (key : string) (newQ : number)
  (given : option string) :
  keeps (otherLookupsKept key) (updateQuantity key newQ given).
Proof.
  unfold updateQuantity; repeat frame_step; other_prim. now apply find_map_other.
Qed.

(** X14.  deleteItem and updateQuantity touch no item but those with the
    given id: whatever their outcome, a lookup of any other id gives what it
    gave before. *)
Theorem other_items_untouched (env : Env) (w : World) (key : string)
  (newQ : number) (given : option string) :
  otherLookupsKept key w (step env w (DeleteItem key)) /\
  otherLookupsKept key w (step env w (UpdateQuantity key newQ given)).
Proof.
  split.
  - apply deleteItem_keeps_others.
  - apply updateQuantity_keeps_others.
Qed.

Lemma lookups_setItems (f : list InventoryItem -> list InventoryItem) :
  (forall key l x, findItem key l = Some x -> findItem key (f l) = Some x) ->
  keeps lookupsKept (setItems f).
Proof. intros Hf env w key item H. cbn. exact (Hf key (items w) item H). Qed.

Lemma addItem_keeps_lookups (itemData : ItemFields) :
  keeps lookupsKept (addItem itemData).
Proof.
  unfold addItem; repeat frame_step;
    first [ apply lookups_setItems; intros key l x H; now apply find_app_found
          | run_prim; intros key x H; exact H ].
Qed.

(** X15.  addItem never hides an item that could be looked up: whatever its
    outcome, every id that was found is still found, with the same item.  In
    particular, should the generated id collide with an existing one, the
    lookup of that id keeps returning the existing item. *)
Theorem addItem_keeps_existing_lookups (env : Env) (w : World) (itemData : ItemFields) :
  lookupsKept w (step env w (AddItem itemData)) /\
  (forall existing,
      getItemById (env_id env (1 + tick w)) w = Some existing ->
      getItemById (env_id env (1 + tick w)) (step env w (AddItem itemData)) =
        Some existing).
Proof.
  assert (H : lookupsKept w (step env w (AddItem itemData)))
    by apply addItem_keeps_lookups.
  split; [exact H|]. intros existing. apply H.
Qed.


Lemma addItem_keeps_existing_lookups_witness :
  getItemById "a"
    (step collidingEnv stockWorld (AddItem (reagentFields "Trypsin" 40 10 None))) =
    Some (storedItem "a" "2024-03-01T09:00:00.000Z"
            (reagentFields "PBS Buffer" 50 10 None)).
Proof.
  apply (proj2 (addItem_keeps_existing_lookups collidingEnv stockWorld
                  (reagentFields "Trypsin" 40 10 None))).
  reflexivity.
Defined.

(** X16.  getExpiringItems returns nothing when the cutoff is an invalid
    date, and a later cutoff returns everything an earlier one does. *)
Theorem expiring_horizon (rt : DateRuntime) (now : Z) (days1 days2 : option number)
  (w : World) :
  (date_addDays rt now (withinDays days1) = None ->
   getExpiringItems rt now days1 w = []) /\
  (forall cutoff1 cutoff2,
      date_addDays rt now (withinDays days1) = Some cutoff1 ->
      date_addDays rt now (withinDays days2) = Some cutoff2 ->
      (cutoff1 <= cutoff2)%Z ->
      incl (getExpiringItems rt now days1 w) (getExpiringItems rt now days2 w)).
Proof.
  unfold getExpiringItems. fold (withinDays days1). fold (withinDays days2). split.
  - intros Hnone. rewrite Hnone. induction (items w) as [|i rest IH]; cbn;
      [reflexivity|].
    destruct (expirationDate i) as [s|]; [|exact IH].
    destruct (s =? "")%string; [exact IH|].
    unfold date_leb. destruct (date_parse rt s); exact IH.
  - intros c1 c2 H1 H2 Hle item. rewrite H1, H2, !filter_In.
    intros [Hin H]. split; [exact Hin|].
    destruct (expirationDate item) as [s|]; [|discriminate].
    destruct (s =? "")%string; [discriminate|].
    apply date_leb_le in H. destruct H as (x & y & Hx & [= <-] & Hxy).
    apply date_leb_le. exists x, c2. repeat split; [exact Hx | lia].
Qed.

Lemma expiring_horizon_witness :
  incl (getExpiringItems utcDates noon_2024_03_10 (Some 7%float) shelf)
    (getExpiringItems utcDates noon_2024_03_10 None shelf).
Proof.
  apply (proj2 (expiring_horizon utcDates noon_2024_03_10 (Some 7%float) None shelf)
           (noon_2024_03_10 + 7 * 86400000)%Z (noon_2024_03_10 + 30 * 86400000)%Z).
  - reflexivity.
  - reflexivity.
  - vm_compute. discriminate.
Defined.


(** * Properties of the components that call the ledger *)



(** X18.  Opening the quantity dialog on an item as it is in memory, with a
    finite quantity, and confirming without entering anything records an
    adjust of zero with the reason "Manual adjustment". *)
Theorem confirm_unchanged_quantity_adjusts (s s' : InventoryTable.State)
  (item : InventoryItem) (env : Env) (w w' : World) :
  getItemById (id item) w = Some item ->
  is_finite (quantity item) = true ->
  InventoryTable.handleQuantityUpdate (InventoryTable.openQuantityDialog item s) env w
    = (s', w') ->
  InventoryTable.quantityDialogItem s' = None ->
  exists t,
    transactions w' = transactions w ++ [t] /\
    transactionType t = Adjust /\
    (quantityChange t =? 0)%float = true /\
    reason t = Some "Manual adjustment".
Proof.
  intros Hfound Hfin. unfold InventoryTable.handleQuantityUpdate. cbn.
  destruct (updateQuantity _ _ _ env w) as [[[] | e] w1] eqn:E; intros [= <- <-].
  2:{ cbn. discriminate. }
  intros _. apply updateQuantity_ok in E.
  destruct E as (found & user & Hf & _ & _ & Ht & _).
  unfold getItemById in Hfound. unfold findItem in Hf. rewrite Hf in Hfound.
  injection Hfound as ->.
  pose proof (number_sub_diag (quantity item) Hfin) as Hzero.
  eexists. split; [exact Ht|]. cbn. repeat split.
  - now apply transactionTypeOf_sign.
  - exact Hzero.
Qed.

Lemma confirm_unchanged_quantity_adjusts_witness :
  exists t,
    transactions
      (snd (InventoryTable.handleQuantityUpdate
              (InventoryTable.openQuantityDialog lowBuffer InventoryTable.initialState)
              labEnv (worldOf [lowBuffer; fullTrypsin]))) = [] ++ [t] /\
    transactionType t = Adjust /\
    (quantityChange t =? 0)%float = true /\
    reason t = Some "Manual adjustment".
Proof.
  exact (confirm_unchanged_quantity_adjusts InventoryTable.initialState _ lowBuffer
           labEnv (worldOf [lowBuffer; fullTrypsin]) _ eq_refl eq_refl eq_refl eq_refl).
Defined.




Lemma includes_empty (s : string) : includes s "" = true.
Proof. destruct s; reflexivity. Qed.

Lemma categoryKey_inj (a b : InventoryCategory) :
  categoryKey a = categoryKey b -> a = b.
Proof. destruct a, b; cbn; intros H; try reflexivity; discriminate H. Qed.

(** X20.  The table shows only items of the ledger, and only items of the
    selected category unless the filter is "all"; with the filter "all" and a
    search term that is empty once lower-cased it shows every item, in the
    ledger's order; a filter that is neither "all" nor a category shows
    nothing. *)
Theorem filteredItems_filters (toLowerCase : string -> string)
  (s : InventoryTable.State) (l : list InventoryItem) :
  (forall item,
      In item (InventoryTable.filteredItems toLowerCase s l) ->
      In item l /\
      (InventoryTable.categoryFilter s = "all" \/
       categoryKey (category item) = InventoryTable.categoryFilter s)) /\
  (InventoryTable.categoryFilter s = "all" ->
   toLowerCase (InventoryTable.searchTerm s) = "" ->
   InventoryTable.filteredItems toLowerCase s l = l) /\
  (InventoryTable.categoryFilter s <> "all" ->
   (forall c, categoryKey c <> InventoryTable.categoryFilter s) ->
   InventoryTable.filteredItems toLowerCase s l = []).
Proof.
  unfold InventoryTable.filteredItems. split; [|split].
  - intros item Hin. apply filter_In in Hin. destruct Hin as [Hin H].
    split; [exact Hin|]. apply andb_true_iff in H. destruct H as [_ H].
    apply orb_true_iff in H. destruct H as [H | H]; apply String.eqb_eq in H; auto.
  - intros Hall Hterm. rewrite Hall, Hterm. cbn.
    induction l as [|i rest IH]; cbn; [reflexivity|].
    rewrite includes_empty. cbn. now rewrite IH.
  - intros Hall Hnone. apply String.eqb_neq in Hall. rewrite Hall.
    induction l as [|i rest IH]; cbn; [reflexivity|].
    specialize (Hnone (category i)). apply String.eqb_neq in Hnone.
    rewrite Hnone, andb_false_r. exact IH.
Qed.

Lemma filteredItems_filters_witness :
  InventoryTable.filteredItems (fun x => x) InventoryTable.initialState
    [lowBuffer; fullTrypsin] = [lowBuffer; fullTrypsin].
Proof.
  apply (proj1 (proj2 (filteredItems_filters (fun x => x) InventoryTable.initialState
                         [lowBuffer; fullTrypsin]))); reflexivity.
Defined.




Lemma category_eqb_eq (a b : InventoryCategory) :
  Dashboard.category_eqb a b = true <-> a = b.
Proof.
  unfold Dashboard.category_eqb. rewrite String.eqb_eq. split.
  - apply categoryKey_inj.
  - now intros ->.
Qed.

Lemma categoryCounts_absent (l : list InventoryItem)
  (acc : InventoryCategory -> option number) (c : InventoryCategory) :
  fold_left
    (fun acc (item : InventoryItem) =>
       fun c =>
         if Dashboard.category_eqb c (category item)
         then Some (Dashboard.orZero (acc (category item)) + 1)%float
         else acc c)
    l acc c = None <->
  acc c = None /\ forall item, In item l -> category item <> c.
Proof.
  revert acc. induction l as [|i rest IH]; intros acc; cbn.
  - split; [intros H; split; [exact H | intros ? []] | intros [H _]; exact H].
  - rewrite IH. destruct (Dashboard.category_eqb c (category i)) eqn:E.
    + apply category_eqb_eq in E. split; [intros [H _]; discriminate H|].
      intros [_ H]. exfalso. apply (H i); [now left | now symmetry].
    + split.
      * intros [Hacc H]. split; [exact Hacc|]. intros item [<- | Hin]; [|now apply H].
        intros Heq. subst c. rewrite (proj2 (category_eqb_eq _ _) eq_refl) in E.
        discriminate E.
      * intros [Hacc H]. split; [exact Hacc|]. intros item Hin. apply H. now right.
Qed.

(** X22.  The dashboard's category distribution has an entry for a category
    exactly when some item of the ledger has that category; so the "No items
    in inventory yet" notice is shown exactly when the ledger holds no item. *)
Theorem categoryCounts_keys (l : list InventoryItem) :
  (forall c,
      Dashboard.categoryCounts l c = None <->
      forall item, In item l -> category item <> c) /\
  (Dashboard.noItemsNotice l = true <-> l = []).
Proof.
  assert (Hkeys : forall c,
      Dashboard.categoryCounts l c = None <->
      forall item, In item l -> category item <> c).
  { intros c. unfold Dashboard.categoryCounts. rewrite categoryCounts_absent.
    split; [intros [_ H]; exact H | intros H; split; [reflexivity | exact H]]. }
  split; [exact Hkeys|].
  unfold Dashboard.noItemsNotice. rewrite forallb_forall. split.
  - intros H. destruct l as [|i rest]; [reflexivity|]. exfalso.
    assert (Hin : In (category i) Dashboard.allCategories)
      by (destruct (category i); cbn; tauto).
    specialize (H _ Hin).
    destruct (Dashboard.categoryCounts (i :: rest) (category i)) eqn:E;
      [discriminate H|].
    apply (proj1 (Hkeys (category i)) E i); [now left | reflexivity].
  - intros -> c _. reflexivity.
Qed.
